(** * ACC server status monitor: classification, change detection, state

    A shallow embedding of [ACCStatusMonitor] (acc_monitor.py).  Python
    dictionaries with a fixed set of keys are records, [None] is [option],
    the wall clock, the network and the files are explicit inputs, and the
    [datetime]/float library calls are parameters of the development. *)

From Stdlib Require Import ZArith QArith List String Ascii Bool Lia DecimalString.
Import ListNotations.
Open Scope string_scope.
Open Scope Z_scope.

(** ** Python values used by the monitor *)

(** A number that is either a Python [int] or a Python [float].  The data
    age is the int [0] or [999] on two paths and a float on the third; a
    float is carried as the rational it denotes. *)
Inductive pynum : Type :=
| PyInt (z : Z)
| PyFloat (q : Q).

(** [x > n] for a number [x] and an int [n]: Python compares an int and a
    float by exact value. *)
Definition num_gt (x : pynum) (n : Z) : bool :=
  match x with
  | PyInt z => n <? z
  | PyFloat q => negb (Qle_bool q (inject_Z n))
  end.

(** [o == z] where [o] is [None] or an int. *)
Definition py_eq (o : option Z) (z : Z) : bool :=
  match o with
  | Some v => v =? z
  | None => false
  end.

(** [str(z)], as interpolated by an f-string. *)
Definition str_of_int (z : Z) : string := NilZero.string_of_int (Z.to_int z).

(** [s.replace('Z', '+00:00')]. *)
Fixpoint replace_Z (s : string) : string :=
  match s with
  | EmptyString => EmptyString
  | String c r =>
      if Ascii.eqb c "Z"%char then "+00:00" ++ replace_Z r
      else String c (replace_Z r)
  end.

(** [str.isspace] on one ASCII character. *)
Definition is_space (c : ascii) : bool :=
  let n := nat_of_ascii c in
  ((9 <=? n)%nat && (n <=? 13)%nat) || ((28 <=? n)%nat && (n <=? 32)%nat).

Fixpoint lstrip (s : string) : string :=
  match s with
  | EmptyString => EmptyString
  | String c r => if is_space c then lstrip r else s
  end.

Fixpoint rstrip (s : string) : string :=
  match s with
  | EmptyString => EmptyString
  | String c r =>
      let r' := rstrip r in
      if is_space c && String.eqb r' EmptyString then EmptyString
      else String c r'
  end.

(** [s.strip()]. *)
Definition strip (s : string) : string := rstrip (lstrip s).

Definition lower_ascii (c : ascii) : ascii :=
  let n := nat_of_ascii c in
  if ((65 <=? n)%nat && (n <=? 90)%nat)%bool then ascii_of_nat (n + 32) else c.

(** [s.lower()], on ASCII letters. *)
Fixpoint lower (s : string) : string :=
  match s with
  | EmptyString => EmptyString
  | String c r => String (lower_ascii c) (lower r)
  end.

(** [history[-n:]]: the whole list when it has at most [n] elements, its
    last [n] elements otherwise. *)
Definition slice_last {A : Type} (n : nat) (l : list A) : list A :=
  skipn (List.length l - n) l.

(** ** Configuration *)

(** [self.config]: the thresholds and the webhook.  The URL, time-out and
    user agent of the fetcher are not read by any decision and are left
    out. *)
Record Config : Type := {
  max_acceptable_ping : Z;
  min_servers_expected : Z;
  max_data_age_minutes : Z;
  warning_ping : Z;
  warning_servers : Z;
  discord_webhook : option string
}.

(** [__init__], given [os.getenv('DISCORD_WEBHOOK_URL')]. *)
Definition init (webhook_env : option string) : Config := {|
  max_acceptable_ping := 150;
  min_servers_expected := 1000;
  max_data_age_minutes := 15;
  warning_ping := 100;
  warning_servers := 1200;
  discord_webhook := webhook_env
|}.

(** The same configuration with other warning thresholds. *)
Definition with_warnings (cfg : Config) (wp ws : Z) : Config := {|
  max_acceptable_ping := max_acceptable_ping cfg;
  min_servers_expected := min_servers_expected cfg;
  max_data_age_minutes := max_data_age_minutes cfg;
  warning_ping := wp;
  warning_servers := ws;
  discord_webhook := discord_webhook cfg
|}.

(** ** Readings *)

(** The dictionary returned by [fetch_api_data], read through [.get]:
    [None] stands for a key that is absent (for [status], [ping], [date]
    and [down_since] also for a JSON [null], which [.get] does not
    distinguish).  The API gives [servers] and [players] as ints. *)
Record ApiData : Type := {
  d_success : bool;
  d_error : option string;
  d_status : option Z;
  d_ping : option Z;
  d_servers : option Z;
  d_players : option Z;
  d_date : option string;
  d_down_since : option string;
  d_request_time : option Q
}.

(** The JSON object of a 200 response. *)
Record Payload : Type := {
  p_status : option Z;
  p_ping : option Z;
  p_servers : option Z;
  p_players : option Z;
  p_date : option string;
  p_down_since : option string
}.

(** What [requests.get] and [response.json()] do in one run. *)
Inductive FetchOutcome : Type :=
| Responded (code : Z) (reason : string) (body : option Payload) (elapsed : Q)
| TimedOut
| ConnectionFailed
| Raised (msg : string).

(** [create_api_error]. *)
Definition create_api_error (reason : string) : ApiData := {|
  d_success := false;
  d_error := Some reason;
  d_status := None;
  d_ping := None;
  d_servers := None;
  d_players := None;
  d_date := None;
  d_down_since := None;
  d_request_time := None
|}.

(** [fetch_api_data]. *)
Definition fetch_api_data (o : FetchOutcome) : ApiData :=
  match o with
  | Responded code reason body elapsed =>
      if negb (code =? 200) then
        {| d_success := false;
           d_error := Some ("API HTTP " ++ str_of_int code ++ " - " ++ reason);
           d_status := None; d_ping := None; d_servers := None;
           d_players := None; d_date := None; d_down_since := None;
           d_request_time := None |}
      else
        match body with
        | Some p =>
            {| d_success := true;
               d_error := None;
               d_status := p_status p; d_ping := p_ping p;
               d_servers := p_servers p; d_players := p_players p;
               d_date := p_date p; d_down_since := p_down_since p;
               d_request_time := Some elapsed |}
        | None => create_api_error "API response is not valid JSON"
        end
  | TimedOut => create_api_error "API timeout"
  | ConnectionFailed => create_api_error "API connection error"
  | Raised msg => create_api_error ("Unexpected error: " ++ msg)
  end.

(** ** Analyses *)

Inductive Status : Type := UP | DEGRADED | DOWN | UNKNOWN | API_ERROR.

(** The string a status is in the program. *)
Definition label (s : Status) : string :=
  match s with
  | UP => "UP"
  | DEGRADED => "DEGRADED"
  | DOWN => "DOWN"
  | UNKNOWN => "UNKNOWN"
  | API_ERROR => "API_ERROR"
  end.

(** The keys of the analysis dictionary before [status] and [issues] are
    added; [determine_overall_status] and [identify_issues] read these. *)
Record Metrics : Type := {
  timestamp : string;
  api_status : option Z;
  ping_ms : option Z;
  servers_count : Z;
  players_count : Z;
  data_age_minutes : pynum;
  down_since : option string;
  api_response_time : Q
}.

(** The two shapes of dictionary [analyze_acc_status] returns: source
    'api_error' with keys status, reason, timestamp; source 'acc_api' with
    the metrics, status and issues. *)
Inductive Analysis : Type :=
| ErrorAnalysis (reason : string) (stamp : string)
| AccAnalysis (m : Metrics) (st : Status) (issues : list string).

(** [analysis['status']]. *)
Definition status_of (a : Analysis) : Status :=
  match a with
  | ErrorAnalysis _ _ => API_ERROR
  | AccAnalysis _ st _ => st
  end.

(** The [issues] key, [None] when the dictionary has none. *)
Definition issues_key (a : Analysis) : option (list string) :=
  match a with
  | ErrorAnalysis _ _ => None
  | AccAnalysis _ _ l => Some l
  end.

(** [analysis.get('issues', [])]. *)
Definition get_issues (a : Analysis) : list string :=
  match issues_key a with
  | Some l => l
  | None => []
  end.

(** The [reason] key. *)
Definition reason_key (a : Analysis) : option string :=
  match a with
  | ErrorAnalysis r _ => Some r
  | AccAnalysis _ _ _ => None
  end.

(** ** The clock *)

(** The two readings of the wall clock in one classification:
    [datetime.now().strftime(..)] and [datetime.now(timezone.utc)], the
    latter as microseconds since the epoch. *)
Record Clock : Type := {
  now_stamp : string;
  utc_now : Z
}.

(** Python truth value of [None] or an int. *)
Definition truthy_int (o : option Z) : bool :=
  match o with
  | Some v => negb (v =? 0)
  | None => false
  end.

(** Python truth value of [None] or a string. *)
Definition truthy_str (o : option string) : bool :=
  match o with
  | Some s => negb (String.eqb s EmptyString)
  | None => false
  end.

(** Membership in a list of strings, [x in [..]]. *)
Definition str_in (x : string) (l : list string) : bool :=
  existsb (String.eqb x) l.

(** ** A reference datetime library

    An instance of the library calls the classifier is parametric in, used
    to run it on concrete readings: ISO-8601 strings of the form
    YYYY-MM-DDTHH:MM:SS[.fff[fff]](+|-)HH:MM, exact division, and rounding
    to the nearest tenth with ties to even. *)
Module RefDatetime.

Definition digit (c : ascii) : option Z :=
  let n := nat_of_ascii c in
  if ((48 <=? n)%nat && (n <=? 57)%nat)%bool then Some (Z.of_nat (n - 48)) else None.

(** Read exactly [k] decimal digits. *)
Fixpoint digits (k : nat) (acc : Z) (s : string) : option (Z * string) :=
  match k with
  | O => Some (acc, s)
  | S k' =>
      match s with
      | String c r =>
          match digit c with
          | Some d => digits k' (10 * acc + d) r
          | None => None
          end
      | EmptyString => None
      end
  end.

(** Read the character [c]. *)
Definition expect (c : ascii) (s : string) : option string :=
  match s with
  | String c' r => if Ascii.eqb c c' then Some r else None
  | EmptyString => None
  end.

Definition is_leap (y : Z) : bool :=
  ((y mod 4 =? 0) && (negb (y mod 100 =? 0) || (y mod 400 =? 0)))%bool.

Definition days_in_month (y m : Z) : Z :=
  if m =? 2 then (if is_leap y then 29 else 28)
  else if ((m =? 4) || (m =? 6) || (m =? 9) || (m =? 11))%bool then 30
  else 31.

(** Days from 1970-01-01 to the given civil date. *)
Definition days_from_civil (y m d : Z) : Z :=
  let y' := if m <=? 2 then y - 1 else y in
  let era := y' / 400 in
  let yoe := y' - era * 400 in
  let doy := (153 * (if 2 <? m then m - 3 else m + 9) + 2) / 5 + d - 1 in
  let doe := yoe * 365 + yoe / 4 - yoe / 100 + doy in
  era * 146097 + doe - 719468.

Definition bind {A B : Type} (o : option A) (f : A -> option B) : option B :=
  match o with
  | Some a => f a
  | None => None
  end.

Notation "'do' x <- o ; k" := (bind o (fun x => k))
  (at level 10, x name, o at level 100, k at level 200).
Notation "'do' ( x , y ) <- o ; k" := (bind o (fun '(x, y) => k))
  (at level 10, x name, y name, o at level 100, k at level 200).

(** The fraction of a second, in microseconds, and the rest of the string. *)
Definition fraction (s : string) : option (Z * string) :=
  match s with
  | String "."%char r =>
      match digits 6 0 r with
      | Some (us, r') => Some (us, r')
      | None => do (ms, r') <- digits 3 0 r; Some (ms * 1000, r')
      end
  | _ => Some (0, s)
  end.

(** The UTC offset in seconds; a string that ends here is a naive time. *)
Definition offset (s : string) : option Z :=
  match s with
  | String sign r =>
      do sgn <- (if Ascii.eqb sign "+"%char then Some 1
                 else if Ascii.eqb sign "-"%char then Some (-1) else None);
      do (hh, r) <- digits 2 0 r;
      do r <- expect ":"%char r;
      do (mm, r) <- digits 2 0 r;
      if (String.eqb r EmptyString && (hh <? 24) && (mm <? 60))%bool
      then Some (sgn * (hh * 3600 + mm * 60)) else None
  | EmptyString => None
  end.

Definition fromisoformat (s : string) : option Z :=
  do (y, s) <- digits 4 0 s;
  do s <- expect "-"%char s;
  do (m, s) <- digits 2 0 s;
  do s <- expect "-"%char s;
  do (d, s) <- digits 2 0 s;
  do s <- expect "T"%char s;
  do (hh, s) <- digits 2 0 s;
  do s <- expect ":"%char s;
  do (mi, s) <- digits 2 0 s;
  do s <- expect ":"%char s;
  do (ss, s) <- digits 2 0 s;
  do (us, s) <- fraction s;
  do off <- offset s;
  if ((1 <=? y) && (1 <=? m) && (m <=? 12) && (1 <=? d)
      && (d <=? days_in_month y m) && (hh <? 24) && (mi <? 60) && (ss <? 60))%bool
  then Some ((days_from_civil y m d * 86400 + hh * 3600 + mi * 60 + ss - off)
             * 1000000 + us)
  else None.

Definition total_minutes (us : Z) : Q := us # 60000000.

(** The nearest multiple of one tenth, ties to the even one. *)
Definition round1 (q : Q) : Q :=
  let n := 20 * Qnum q in
  let d := 2 * Zpos (Qden q) in
  let lo := n / d in
  let r := n mod d in
  let t := if r * 2 <? d then lo
           else if d <? r * 2 then lo + 1
           else if Z.even lo then lo else lo + 1 in
  Qred (t # 10).

(** A number of tenths printed with one decimal. *)
Definition repr_float (q : Q) : string :=
  let t := (10 * Qnum q) / Zpos (Qden q) in
  let a := Z.abs t in
  (if t <? 0 then "-" else EmptyString) ++ str_of_int (a / 10) ++ "."
    ++ str_of_int (a mod 10).

End RefDatetime.

(** ** Reference formatting

    An instance of the float formats and of the offline duration the
    message is parametric in: rounding to the nearest tenth or hundredth
    with ties to even, and down-since dates given in UTC. *)
Module RefFormat.

(** The nearest multiple of [1 / scale], ties to the even one, as a number
    of such units. *)
Definition round_units (scale : Z) (q : Q) : Z :=
  let n := 2 * scale * Qnum q in
  let d := 2 * Zpos (Qden q) in
  let lo := n / d in
  let r := n mod d in
  if r * 2 <? d then lo
  else if d <? r * 2 then lo + 1
  else if Z.even lo then lo else lo + 1.

Definition sign (t : Z) : string :=
  if t <? 0 then "-" else EmptyString.

Definition fmt_1f (q : Q) : string :=
  let t := round_units 10 q in
  sign t ++ str_of_int (Z.abs t / 10) ++ "." ++ str_of_int (Z.abs t mod 10).

Definition fmt_2f (q : Q) : string :=
  let t := round_units 100 q in
  sign t ++ str_of_int (Z.abs t / 100) ++ "."
    ++ str_of_int ((Z.abs t / 10) mod 10) ++ str_of_int (Z.abs t mod 10).

(** Hours and minutes from the down-since date to the local wall clock
    read as UTC, in microseconds since the epoch. *)
Definition offline_hours_minutes (local_now : Z) (s : string) : option (Z * Z) :=
  match RefDatetime.fromisoformat s with
  | Some down_date =>
      let us := local_now - down_date in
      Some (us / 3600000000, (us mod 3600000000) / 60000000)
  | None => None
  end.

End RefFormat.

Section Monitor.

(** [datetime.fromisoformat]: the instant of an aware datetime in
    microseconds since the epoch; [None] when it raises, or when the
    result is naive (subtracting it from an aware datetime raises). *)
Variable fromisoformat : string -> option Z.

(** [td.total_seconds() / 60] for a timedelta of so many microseconds. *)
Variable total_minutes : Z -> Q.

(** [round(x, 1)] on a float. *)
Variable round1 : Q -> Q.

(** A float as an f-string prints it. *)
Variable repr_float : Q -> string.

(** [round(x, 1)]: an int is returned unchanged. *)
Definition round_1 (x : pynum) : pynum :=
  match x with
  | PyInt z => PyInt z
  | PyFloat q => PyFloat (round1 q)
  end.

Definition str_of_num (x : pynum) : string :=
  match x with
  | PyInt z => str_of_int z
  | PyFloat q => repr_float q
  end.

(** The computation of [data_age_minutes] in [analyze_acc_status]:
    [0] unless [date_str] is truthy, [999] when the [try] block raises. *)
Definition compute_data_age (clk : Clock) (date_str : option string) : pynum :=
  if truthy_str date_str then
    match date_str with
    | Some s =>
        match fromisoformat (replace_Z s) with
        | Some data_date => PyFloat (total_minutes (utc_now clk - data_date))
        | None => PyInt 999
        end
    | None => PyInt 0
    end
  else PyInt 0.

(** The list [issues] built inside [determine_overall_status]. *)
Definition metric_codes (cfg : Config) (m : Metrics) : list string :=
  (match ping_ms m with
   | None => ["ping_null"]
   | Some ping => if max_acceptable_ping cfg <? ping then ["ping_high"] else []
   end)
  ++ (if servers_count m <? min_servers_expected cfg then ["servers_low"] else [])
  ++ (if num_gt (data_age_minutes m) (max_data_age_minutes cfg)
      then ["data_old"] else []).

(** The last [if]/[elif]/[else] of [determine_overall_status]. *)
Definition final_status (issues : list string) : Status :=
  match issues with
  | [] => UP
  | i :: _ =>
      if (Nat.eqb (List.length issues) 1
          && negb (str_in i ["ping_null"; "data_old"]))%bool
      then DEGRADED
      else DOWN
  end.

(** [determine_overall_status]. *)
Definition determine_overall_status (cfg : Config) (m : Metrics) : Status :=
  if py_eq (api_status m) 0 then DOWN
  else if py_eq (api_status m) (-1) then UNKNOWN
  else if negb (py_eq (api_status m) 1) then API_ERROR
  else final_status (metric_codes cfg m).

(** [identify_issues]. *)
Definition identify_issues (cfg : Config) (m : Metrics) : list string :=
  let api := api_status m in
  let ping := ping_ms m in
  let servers := servers_count m in
  let data_age := data_age_minutes m in
  (if py_eq api 0 then ["ACC servers offline (API)"]
   else if py_eq api (-1) then ["ACC servers status unknown (API)"]
   else [])
  ++ (match ping with
      | None => if py_eq api 1 then ["ACC ping unavailable"] else []
      | Some p =>
          if (truthy_int ping && (max_acceptable_ping cfg <? p))%bool then
            ["ACC ping high: " ++ str_of_int p ++ "ms (> "
               ++ str_of_int (max_acceptable_ping cfg) ++ "ms)"]
          else if (truthy_int ping && (warning_ping cfg <? p))%bool then
            ["ACC ping warning: " ++ str_of_int p ++ "ms (> "
               ++ str_of_int (warning_ping cfg) ++ "ms)"]
          else []
      end)
  ++ (if servers <? min_servers_expected cfg then
        ["ACC servers count low: " ++ str_of_int servers ++ " (< "
           ++ str_of_int (min_servers_expected cfg) ++ ")"]
      else if servers <? warning_servers cfg then
        ["ACC servers count decreasing (" ++ str_of_int servers ++ ")"]
      else [])
  ++ (if num_gt data_age (max_data_age_minutes cfg) then
        ["ACC data too old: " ++ str_of_num data_age ++ " minutes (> "
           ++ str_of_int (max_data_age_minutes cfg) ++ " minutes)"]
      else []).

(** [.get(key, default)]. *)
Definition get_default {A : Type} (o : option A) (default : A) : A :=
  match o with
  | Some v => v
  | None => default
  end.

(** The dictionary [analysis] of [analyze_acc_status] before the status
    and the issues are added. *)
Definition metrics_of (clk : Clock) (api_data : ApiData) : Metrics := {|
  timestamp := now_stamp clk;
  api_status := d_status api_data;
  ping_ms := d_ping api_data;
  servers_count := get_default (d_servers api_data) 0;
  players_count := get_default (d_players api_data) 0;
  data_age_minutes := round_1 (compute_data_age clk (d_date api_data));
  down_since := d_down_since api_data;
  api_response_time := get_default (d_request_time api_data) 0%Q
|}.

(** [analyze_acc_status]. *)
Definition analyze_acc_status (cfg : Config) (clk : Clock)
    (api_data : ApiData) : Analysis :=
  if negb (d_success api_data) then
    ErrorAnalysis (get_default (d_error api_data) "API error") (now_stamp clk)
  else
    let m := metrics_of clk api_data in
    AccAnalysis m (determine_overall_status cfg m) (identify_issues cfg m).

(** ** Notification *)

(** The part of the Discord message that depends on the status alone. *)
Record Embed : Type := {
  e_title : string;
  e_color : Z
}.

(** [create_discord_embed]: [None] when it raises.  A dictionary of source
    'api_error' has no key [api_status], so [analysis['api_status']]
    raises [KeyError]; on a dictionary of source 'acc_api' every key read
    is present. *)
Definition create_discord_embed (analysis : Analysis) : option Embed :=
  match analysis with
  | ErrorAnalysis _ _ => None
  | AccAnalysis _ st _ =>
      Some (match st with
            | UP => {| e_title := "ACC SERVERS ONLINE"; e_color := 0x28A745 |}
            | DEGRADED => {| e_title := "ACC SERVERS DEGRADED"; e_color := 0xFFC107 |}
            | DOWN => {| e_title := "ACC SERVERS OFFLINE"; e_color := 0xDC3545 |}
            | UNKNOWN => {| e_title := "ACC SERVERS UNKNOWN"; e_color := 0x6C757D |}
            | API_ERROR => {| e_title := "ACC API ERROR"; e_color := 0x6610F2 |}
            end)
  end.

(** What [requests.post] does, if it is called. *)
Inductive PostOutcome : Type :=
| PostResponse (code : Z) (reason : string)
| PostRaised (msg : string).

(** What a run does to the outside, in order. *)
Inductive Event : Type :=
| Post (e : Embed)
| LogFirstMonitoring
| LogStatusChange (last current : string)
| LogCriticalStatus (current : string)
| LogNoSignificantChange
| LogNoWebhook
| LogNotificationSent
| LogNotificationFailed (code : Z)
| LogNotificationError
| LogStatusSaved
| LogStatusNotSaved
| LogSaveStatusError
| LogHistorySaved (entries : nat)
| LogHistoryError.

(** [send_discord_notification]: the result and what it did. *)
Definition send_discord_notification (cfg : Config) (post : PostOutcome)
    (analysis : Analysis) : bool * list Event :=
  if negb (truthy_str (discord_webhook cfg)) then (false, [LogNoWebhook])
  else
    match create_discord_embed analysis with
    | None => (false, [LogNotificationError])
    | Some embed =>
        match post with
        | PostResponse code _ =>
            if code =? 204 then (true, [Post embed; LogNotificationSent])
            else (false, [Post embed; LogNotificationFailed code])
        | PostRaised _ => (false, [Post embed; LogNotificationError])
        end
    end.

(** ** Persisted state *)

(** The content of acc_metrics.json: absent, not a JSON list, or a list. *)
Inductive MetricsFile : Type :=
| NoFile
| Unreadable
| History (h : list Analysis).

(** The two files; [status_file] is [None] when the file is absent. *)
Record Files : Type := {
  status_file : option string;
  metrics_file : MetricsFile
}.

(** [get_last_status]. *)
Definition get_last_status (fs : Files) : option string :=
  match status_file fs with
  | Some content => Some (strip content)
  | None => None
  end.

(** [save_status]; a write that raises is logged and leaves the file. *)
Definition save_status (fs : Files) (st : string) (write_ok : bool)
    : Files * list Event :=
  if write_ok then
    ({| status_file := Some st; metrics_file := metrics_file fs |}, [])
  else (fs, [LogSaveStatusError]).

(** [save_metrics_history]. *)
Definition save_metrics_history (fs : Files) (analysis : Analysis)
    (write_ok : bool) : Files * list Event :=
  match
    match metrics_file fs with
    | NoFile => Some []
    | History h => Some h
    | Unreadable => None
    end
  with
  | None => (fs, [LogHistoryError])
  | Some history =>
      let history := (history ++ [analysis])%list in
      let history := slice_last 200 history in
      if write_ok then
        ({| status_file := status_file fs; metrics_file := History history |},
         [LogHistorySaved (List.length history)])
      else (fs, [LogHistoryError])
  end.

(** ** One run *)

(** Everything outside the process that a run depends on. *)
Record Outside : Type := {
  force_notification : option string;   (* os.getenv('FORCE_NOTIFICATION') *)
  fetch : FetchOutcome;
  clock : Clock;
  post : PostOutcome;
  status_write_ok : bool;
  metrics_write_ok : bool
}.

(** The value bound to [significant_change] in [run]: the parenthesised
    expression has a comma before the force test, so it is a tuple of two
    booleans, here the list of its elements. *)
Definition significant_change (last_status : option string)
    (current_status : string) (force_env : option string) : list bool :=
  [(match last_status with
    | None => true
    | Some last => negb (String.eqb last current_status)
    end
    || str_in current_status ["DOWN"; "API_ERROR"])%bool;
   String.eqb (lower (get_default force_env "false")) "true"].

(** Python truth value of a tuple: it is true unless the tuple is empty. *)
Definition truthy_tuple {A : Type} (t : list A) : bool :=
  match t with
  | [] => false
  | _ :: _ => true
  end.

(** [run]: the analysis returned, the files afterwards and the events of
    the change-detection, notification and persistence steps. *)
Definition run (cfg : Config) (w : Outside) (fs : Files)
    : Analysis * Files * list Event :=
  let api_data := fetch_api_data (fetch w) in
  let analysis := analyze_acc_status cfg (clock w) api_data in
  let last_status := get_last_status fs in
  let current_status := label (status_of analysis) in
  let '(fs1, ev1) :=
    if truthy_tuple (significant_change last_status current_status
                      (force_notification w)) then
      let why :=
        match last_status with
        | None => LogFirstMonitoring
        | Some last =>
            if negb (String.eqb last current_status)
            then LogStatusChange last current_status
            else LogCriticalStatus current_status
        end in
      let '(sent, ev_send) := send_discord_notification cfg (post w) analysis in
      if sent then
        let '(fs', ev_save) := save_status fs current_status (status_write_ok w) in
        (fs', (why :: ev_send ++ ev_save ++ [LogStatusSaved])%list)
      else (fs, (why :: ev_send ++ [LogStatusNotSaved])%list)
    else (fs, [LogNoSignificantChange]) in
  let '(fs2, ev2) := save_metrics_history fs1 analysis (metrics_write_ok w) in
  (analysis, fs2, (ev1 ++ ev2)%list).

(** The rule of the change detector as the comment lines of
    [significant_change] read: first run, status changed, critical status,
    or the force flag. *)
Definition notify_rule (last_status : option string) (current_status : string)
    (force : bool) : bool :=
  (match last_status with
   | None => true
   | Some last => negb (String.eqb last current_status)
   end
   || str_in current_status ["DOWN"; "API_ERROR"]
   || force)%bool.

(** The analysis and the files a run ends with. *)
Definition analysis_of (r : Analysis * Files * list Event) : Analysis :=
  fst (fst r).

Definition files_of (r : Analysis * Files * list Event) : Files :=
  snd (fst r).

Definition events_of (r : Analysis * Files * list Event) : list Event :=
  snd r.

(** The analysis a run classifies its fetch into. *)
Definition run_analysis (cfg : Config) (w : Outside) : Analysis :=
  analyze_acc_status cfg (clock w) (fetch_api_data (fetch w)).

(** Delivery of the notification fails: no webhook is configured, the
    message cannot be built, the POST raises, or it answers something
    other than 204. *)
Definition delivery_failed (cfg : Config) (p : PostOutcome) (a : Analysis) : Prop :=
  truthy_str (discord_webhook cfg) = false
  \/ create_discord_embed a = None
  \/ (exists msg, p = PostRaised msg)
  \/ (exists code reason, p = PostResponse code reason /\ code <> 204).

(** ** The four primary issues of a reading

    The conditions under which [determine_overall_status] appends a code,
    read off a successfully fetched reading. *)

Definition ping_missing (d : ApiData) : bool :=
  match d_ping d with
  | None => true
  | Some _ => false
  end.

Definition ping_above_max (cfg : Config) (d : ApiData) : bool :=
  match d_ping d with
  | None => false
  | Some p => max_acceptable_ping cfg <? p
  end.

Definition servers_below_min (cfg : Config) (d : ApiData) : bool :=
  get_default (d_servers d) 0 <? min_servers_expected cfg.

Definition data_too_old (cfg : Config) (clk : Clock) (d : ApiData) : bool :=
  num_gt (round_1 (compute_data_age clk (d_date d))) (max_data_age_minutes cfg).

(** The resolution policy in the words of the design: no issue is Up; a
    single issue that is neither 'ping missing' nor 'data too old' is
    Degraded; anything else is Down. *)
Definition policy_status (missing high low old : bool) : Status :=
  let count := (Nat.b2n missing + Nat.b2n high + Nat.b2n low + Nat.b2n old)%nat in
  if Nat.eqb count 0 then UP
  else if (Nat.eqb count 1 && negb missing && negb old)%bool then DEGRADED
  else DOWN.

(** The event is an HTTP POST to the webhook. *)
Definition is_post (ev : Event) : bool :=
  match ev with
  | Post _ => true
  | _ => false
  end.

(** ** Exit code *)


(** The same outside with another value of FORCE_NOTIFICATION. *)
Definition with_force (w : Outside) (force_env : option string) : Outside := {|
  force_notification := force_env;
  fetch := fetch w;
  clock := clock w;
  post := post w;
  status_write_ok := status_write_ok w;
  metrics_write_ok := metrics_write_ok w
|}.

(** ** The fields of the Discord message *)

(** The emoji that start the field names. *)
Inductive Icon : Type :=
| IconChart | IconRobot | IconCalendar
| IconGreen | IconYellow | IconRed
| IconPeople | IconStopwatch | IconWarning | IconHourglass.

(** One entry of [embed['embeds'][0]['fields']]; its name is the emoji
    [f_icon], a space and [f_name]. *)
Record Field : Type := {
  f_icon : Icon;
  f_name : string;
  f_value : string;
  f_inline : bool
}.

(** [x:.1f] and [x:.2f] on a float. *)
Variable fmt_1f : Q -> string.
Variable fmt_2f : Q -> string.

(** The [try] block of the offline duration on the string given to
    [fromisoformat]: the hours and minutes, [None] when it raises. *)
Variable offline_hours_minutes : string -> option (Z * Z).

Definition newline : string := String (ascii_of_nat 10) EmptyString.

(** The bullet U+2022 in UTF-8. *)
Definition bullet : string :=
  String (ascii_of_nat 226) (String (ascii_of_nat 128)
    (String (ascii_of_nat 162) EmptyString)).

(** Commas between groups of three, on the digits from the right. *)
Fixpoint commas_rev (digits_rev : list ascii) (since_comma : nat) : list ascii :=
  match digits_rev with
  | [] => []
  | c :: r =>
      if Nat.eqb since_comma 3 then ","%char :: c :: commas_rev r 1
      else c :: commas_rev r (S since_comma)
  end.

(** [z:,]. *)
Definition fmt_thousands (z : Z) : string :=
  (if z <? 0 then "-" else EmptyString)
  ++ string_of_list_ascii
       (rev (commas_rev (rev (list_ascii_of_string (str_of_int (Z.abs z)))) 0)).

(** The character is not a comma. *)
Definition not_comma (c : ascii) : bool := negb (Ascii.eqb c ","%char).

(** A string without its commas. *)
Fixpoint without_commas (s : string) : string :=
  match s with
  | EmptyString => EmptyString
  | String c r =>
      if Ascii.eqb c ","%char then without_commas r
      else String c (without_commas r)
  end.

(** [str(api_status)]. *)
Definition str_of_opt_int (o : option Z) : string :=
  match o with
  | Some z => str_of_int z
  | None => "None"
  end.

(** [data_age:.1f]. *)
Definition fmt_age (x : pynum) : string :=
  match x with
  | PyInt z => str_of_int z ++ ".0"
  | PyFloat q => fmt_1f q
  end.

Definition ping_light (cfg : Config) (ping : Z) : Icon :=
  if ping <=? warning_ping cfg then IconGreen
  else if ping <=? max_acceptable_ping cfg then IconYellow
  else IconRed.

Definition servers_light (cfg : Config) (servers : Z) : Icon :=
  if warning_servers cfg <=? servers then IconGreen
  else if min_servers_expected cfg <=? servers then IconYellow
  else IconRed.

Definition age_light (cfg : Config) (data_age : pynum) : Icon :=
  if negb (num_gt data_age (max_data_age_minutes cfg)) then IconGreen
  else IconRed.

(** The text of the issues field: the first five issues, one per line. *)
Definition issues_text (issues : list string) : string :=
  String.concat newline (map (fun issue => bullet ++ " " ++ issue) (firstn 5 issues)).

(** The fields [create_discord_embed] puts in the message, in order;
    [None] when it raises (see [create_discord_embed]). *)
Definition embed_fields (cfg : Config) (analysis : Analysis) : option (list Field) :=
  match analysis with
  | ErrorAnalysis _ _ => None
  | AccAnalysis m st issues =>
      let api := api_status m in
      Some
        ([ {| f_icon := IconChart; f_name := "State Detected";
              f_value := "`" ++ label st ++ "`"; f_inline := true |};
           {| f_icon := IconRobot; f_name := "API Status";
              f_value := "`" ++ str_of_opt_int api ++ "` "
                         ++ (if py_eq api 1 then "(UP)"
                             else if py_eq api 0 then "(DOWN)"
                             else if py_eq api (-1) then "(UNKNOWN)"
                             else "(ERROR)");
              f_inline := true |};
           {| f_icon := IconCalendar; f_name := "Last Update";
              f_value := timestamp m; f_inline := true |} ]
         ++ (match ping_ms m with
             | Some ping =>
                 [ {| f_icon := ping_light cfg ping; f_name := "Ping Servers";
                      f_value := "`" ++ str_of_int ping ++ " ms`";
                      f_inline := true |} ]
             | None => []
             end)
         ++ [ {| f_icon := servers_light cfg (servers_count m);
                 f_name := "Servers Online";
                 f_value := "`" ++ fmt_thousands (servers_count m) ++ "`";
                 f_inline := true |};
              {| f_icon := IconPeople; f_name := "Players Online";
                 f_value := "`" ++ fmt_thousands (players_count m) ++ "`";
                 f_inline := true |};
              {| f_icon := age_light cfg (data_age_minutes m);
                 f_name := "Data Age";
                 f_value := "`" ++ fmt_age (data_age_minutes m) ++ " minutes ago`";
                 f_inline := true |};
              {| f_icon := IconStopwatch; f_name := "API Response Time";
                 f_value := "`" ++ fmt_2f (api_response_time m) ++ "s`";
                 f_inline := true |} ]
         ++ (match issues with
             | [] => []
             | _ :: _ =>
                 [ {| f_icon := IconWarning; f_name := "Issues Detected";
                      f_value := "```" ++ newline ++ issues_text issues ++ "```";
                      f_inline := false |} ]
             end)
         ++ (if truthy_str (down_since m) then
               match down_since m with
               | Some s =>
                   match offline_hours_minutes (replace_Z s) with
                   | Some (hours, minutes) =>
                       [ {| f_icon := IconHourglass; f_name := "Duration Offline";
                            f_value := "`" ++ str_of_int hours ++ "h "
                                       ++ str_of_int minutes ++ "min`";
                            f_inline := true |} ]
                   | None => []
                   end
               | None => []
               end
             else []))%list
  end.

(** ** The local test script (test_local.py) *)

(** The number of occurrences of a character. *)
Fixpoint count_char (c : ascii) (s : string) : nat :=
  match s with
  | EmptyString => 0
  | String c' r => ((if Ascii.eqb c' c then 1 else 0) + count_char c r)%nat
  end.

(** [s.split(sep)] for a separator of one character. *)
Fixpoint split_on (sep : ascii) (s : string) : list string :=
  match s with
  | EmptyString => [EmptyString]
  | String c r =>
      if Ascii.eqb c sep then EmptyString :: split_on sep r
      else
        match split_on sep r with
        | part :: parts => String c part :: parts
        | [] => [String c EmptyString]
        end
  end.

Definition webhook_prefix : string := "https://discord.com/api/webhooks/".

(** [test_webhook_format]. *)
Definition test_webhook_format (webhook_url : string) : bool :=
  if (String.eqb webhook_url EmptyString
      || negb (String.prefix webhook_prefix webhook_url))%bool
  then false
  else Nat.eqb (List.length (split_on "/"%char webhook_url)) 7.

(** The thresholds [test_analysis_logic] sets for itself. *)
Definition test_config : Config := {|
  max_acceptable_ping := 200;
  min_servers_expected := 1000;
  max_data_age_minutes := 20;
  warning_ping := 150;
  warning_servers := 1200;
  discord_webhook := None
|}.

(** The dictionary [test_analysis_logic] returns. *)
Record TestAnalysis : Type := {
  t_api_status : option Z;
  t_ping_ms : option Z;
  t_servers_count : Z;
  t_players_count : Z;
  t_data_age_minutes : pynum;
  t_timestamp : string;
  t_status : Status
}.

(** [test_analysis_logic], on the JSON object of the response, [None] for
    a falsy argument.  The list [issues] is bound only in the branch of
    raw status 1; in the other branches the later [if issues:] raises
    [UnboundLocalError], which the [except] turns into [None].  The data
    age is compared before it is rounded. *)
Definition test_analysis_logic (clk : Clock) (api_data : option Payload)
    : option TestAnalysis :=
  match api_data with
  | None => None
  | Some p =>
      let config := test_config in
      let api := p_status p in
      let ping := p_ping p in
      let servers := get_default (p_servers p) 0 in
      let players := get_default (p_players p) 0 in
      let data_age_minutes := compute_data_age clk (p_date p) in
      let '(status, issues) :=
        if py_eq api 0 then (DOWN, None)
        else if py_eq api (-1) then (UNKNOWN, None)
        else if negb (py_eq api 1) then (API_ERROR, None)
        else
          let issues :=
            ((match ping with
              | None => ["ping_null"]
              | Some v =>
                  if max_acceptable_ping config <? v then ["ping_high"] else []
              end)
             ++ (if servers <? min_servers_expected config
                 then ["servers_low"] else [])
             ++ (if num_gt data_age_minutes (max_data_age_minutes config)
                 then ["data_old"] else []))%list in
          (final_status issues, Some issues) in
      match issues with
      | None => None
      | Some _ =>
          Some {| t_api_status := api;
                  t_ping_ms := ping;
                  t_servers_count := servers;
                  t_players_count := players;
                  t_data_age_minutes := round_1 data_age_minutes;
                  t_timestamp := now_stamp clk;
                  t_status := status |}
      end
  end.

(** ** Sample inputs *)

(** A healthy response: ping 35 ms, 1600 servers, observed at
    2023-01-01 03:00 UTC. *)
Definition sample_payload : Payload := {|
  p_status := Some 1;
  p_ping := Some 35;
  p_servers := Some 1600;
  p_players := Some 2500;
  p_date := Some "2023-01-01T03:00:00.000Z";
  p_down_since := None
|}.

(** The reading a 200 response with this body gives. *)
Definition reading_of (p : Payload) : ApiData :=
  fetch_api_data (Responded 200 "OK" (Some p) (1 # 4)).

Definition sample_reading : ApiData := reading_of sample_payload.

(** The healthy response with one field changed. *)
Definition with_date (p : Payload) (date : option string) : Payload := {|
  p_status := p_status p;
  p_ping := p_ping p;
  p_servers := p_servers p;
  p_players := p_players p;
  p_date := date;
  p_down_since := p_down_since p
|}.

Definition with_status (p : Payload) (st : option Z) : Payload := {|
  p_status := st;
  p_ping := p_ping p;
  p_servers := p_servers p;
  p_players := p_players p;
  p_date := p_date p;
  p_down_since := p_down_since p
|}.

Definition with_servers (p : Payload) (n : option Z) : Payload := {|
  p_status := p_status p;
  p_ping := p_ping p;
  p_servers := n;
  p_players := p_players p;
  p_date := p_date p;
  p_down_since := p_down_since p
|}.

Definition with_ping (p : Payload) (ping : option Z) : Payload := {|
  p_status := p_status p;
  p_ping := ping;
  p_servers := p_servers p;
  p_players := p_players p;
  p_date := p_date p;
  p_down_since := p_down_since p
|}.

(** The healthy reading without its date, with a date that is not one,
    reported down, and without its server count. *)
Definition undated_reading : ApiData :=
  reading_of (with_date sample_payload None).

Definition garbled_date_reading : ApiData :=
  reading_of (with_date sample_payload (Some "yesterday")).

Definition down_reading : ApiData :=
  reading_of (with_status sample_payload (Some 0)).

Definition no_servers_reading : ApiData :=
  reading_of (with_servers sample_payload None).

(** The reading of a fetch that timed out. *)
Definition timeout_reading : ApiData := fetch_api_data TimedOut.

(** Two minutes and twenty minutes after the observation. *)
Definition clock_0302 : Clock := {|
  now_stamp := "01/01/2023 03:02:00";
  utc_now := 1672542120000000
|}.

Definition clock_0320 : Clock := {|
  now_stamp := "01/01/2023 03:20:00";
  utc_now := 1672543200000000
|}.

(** A run that fetches the healthy response, with a webhook that answers
    204 and the force flag unset. *)
Definition quiet_outside : Outside := {|
  force_notification := None;
  fetch := Responded 200 "OK" (Some sample_payload) (1 # 4);
  clock := clock_0302;
  post := PostResponse 204 "No Content";
  status_write_ok := true;
  metrics_write_ok := true
|}.

Definition sample_config : Config :=
  init (Some "https://discord.com/api/webhooks/1/token").

Definition files_last_up : Files := {|
  status_file := Some "UP";
  metrics_file := NoFile
|}.

Definition files_last_down : Files := {|
  status_file := Some "DOWN";
  metrics_file := NoFile
|}.

(** The same run with a webhook that answers 500. *)
Definition failing_outside : Outside := {|
  force_notification := None;
  fetch := Responded 200 "OK" (Some sample_payload) (1 # 4);
  clock := clock_0302;
  post := PostResponse 500 "Internal Server Error";
  status_write_ok := true;
  metrics_write_ok := true
|}.

(** The UTC instant of [clock_0302] with another local time stamp. *)
Definition clock_0302_local : Clock := {|
  now_stamp := "01/01/2023 04:02:00";
  utc_now := 1672542120000000
|}.

(** The healthy reading with a ping of 120 ms. *)
Definition warm_ping_reading : ApiData :=
  reading_of (with_ping sample_payload (Some 120)).

(** A run whose fetch times out. *)
Definition timeout_outside : Outside := {|
  force_notification := None;
  fetch := TimedOut;
  clock := clock_0302;
  post := PostResponse 204 "No Content";
  status_write_ok := true;
  metrics_write_ok := true
|}.


(** The field of the message for a ping of 35 ms. *)
Definition ping_field_35 : Field := {|
  f_icon := IconGreen;
  f_name := "Ping Servers";
  f_value := "`35 ms`";
  f_inline := true
|}.

(** A history file that holds 200 entries, the oldest one of its own
    kind. *)
Definition full_history : list Analysis :=
  ErrorAnalysis "API timeout" "31/12/2022 10:00:00"
  :: repeat (ErrorAnalysis "API connection error" "31/12/2022 10:05:00") 199.

Definition files_full_history : Files := {|
  status_file := Some "API_ERROR";
  metrics_file := History full_history
|}.

(** * Properties *)

(** ** Auxiliary facts *)

Lemma length_slice_last (A : Type) (n : nat) (l : list A) :
  List.length (slice_last n l) = Nat.min (List.length l) n.
Proof.
  unfold slice_last. rewrite length_skipn. lia.
Qed.

Lemma slice_last_suffix (A : Type) (n : nat) (l : list A) :
  (firstn (List.length l - n) l ++ slice_last n l)%list = l.
Proof.
  unfold slice_last. apply firstn_skipn.
Qed.

Lemma slice_last_short (A : Type) (n : nat) (l : list A) :
  (List.length l <= n)%nat -> slice_last n l = l.
Proof.
  intros Hle. unfold slice_last.
  replace (List.length l - n)%nat with 0%nat by lia. reflexivity.
Qed.

Lemma slice_last_snoc (A : Type) (n : nat) (l : list A) (x : A) :
  slice_last (S n) (l ++ [x]) = (slice_last n l ++ [x])%list.
Proof.
  unfold slice_last. rewrite length_app, skipn_app. simpl.
  replace (List.length l + 1 - S n)%nat with (List.length l - n)%nat by lia.
  replace (List.length l - n - List.length l)%nat with 0%nat by lia.
  reflexivity.
Qed.

Lemma slice_last_full_snoc (A : Type) (n : nat) (l : list A) (x : A) :
  List.length l = S n -> slice_last (S n) (l ++ [x]) = (tl l ++ [x])%list.
Proof.
  intros Hlen. rewrite slice_last_snoc. f_equal.
  unfold slice_last. rewrite Hlen.
  replace (S n - n)%nat with 1%nat by lia.
  destruct l; reflexivity.
Qed.

(** [send_discord_notification] succeeds exactly when a webhook is
    configured, the message can be built and the POST answers 204. *)
Lemma send_true_iff (cfg : Config) (p : PostOutcome) (a : Analysis) :
  fst (send_discord_notification cfg p a) = true <->
  truthy_str (discord_webhook cfg) = true
  /\ create_discord_embed a <> None
  /\ exists reason, p = PostResponse 204 reason.
Proof.
  unfold send_discord_notification.
  destruct (truthy_str (discord_webhook cfg)); simpl.
  - destruct (create_discord_embed a) as [e|]; simpl.
    + destruct p as [code reason|msg]; simpl.
      * destruct (Z.eqb_spec code 204) as [->|Hne]; simpl.
        -- split; [intros _|reflexivity].
           repeat split; [discriminate|]. exists reason. reflexivity.
        -- split; [discriminate|].
           intros (_ & _ & r & Hr). inversion Hr. contradiction.
      * split; [discriminate|]. intros (_ & _ & r & Hr). discriminate.
    + split; [discriminate|]. intros (_ & Hn & _). contradiction.
  - split; [discriminate|]. intros (Hw & _). discriminate.
Qed.

(** The status of a successfully fetched reading with raw status 1, in
    terms of its four primary issues. *)
Lemma status_of_up_reading (cfg : Config) (clk : Clock) (d : ApiData) :
  d_success d = true ->
  d_status d = Some 1 ->
  status_of (analyze_acc_status cfg clk d)
  = policy_status (ping_missing d) (ping_above_max cfg d)
      (servers_below_min cfg d) (data_too_old cfg clk d).
Proof.
  intros Hok Hup.
  unfold analyze_acc_status. rewrite Hok. simpl.
  unfold determine_overall_status, metric_codes, metrics_of. simpl.
  rewrite Hup. simpl.
  unfold ping_missing, ping_above_max, servers_below_min, data_too_old.
  destruct (d_ping d) as [p|];
    [destruct (max_acceptable_ping cfg <? p)|];
    destruct (get_default (d_servers d) 0 <? min_servers_expected cfg);
    destruct (num_gt (round_1 (compute_data_age clk (d_date d)))
                (max_data_age_minutes cfg));
    reflexivity.
Qed.

(** The codes raised for a reading are the four primary issues, in the
    order ping, servers, data age. *)
Lemma metric_codes_of_reading (cfg : Config) (clk : Clock) (d : ApiData) :
  metric_codes cfg (metrics_of clk d)
  = ((if ping_missing d then ["ping_null"] else [])
     ++ (if ping_above_max cfg d then ["ping_high"] else [])
     ++ (if servers_below_min cfg d then ["servers_low"] else [])
     ++ (if data_too_old cfg clk d then ["data_old"] else []))%list.
Proof.
  unfold metric_codes, metrics_of, ping_missing, ping_above_max,
    servers_below_min, data_too_old. simpl.
  destruct (d_ping d) as [p|]; [destruct (max_acceptable_ping cfg <? p)|];
    reflexivity.
Qed.

(** ** Classification *)

(** C1. A successfully fetched reading with raw status 1 (Up) is resolved
    by the asymmetric policy over its four primary issues (ping missing,
    ping above the maximum, server count below the minimum, data age above
    the maximum): no issue gives UP, a single issue other than 'ping
    missing' and 'data too old' gives DEGRADED, everything else DOWN. *)
Theorem up_reading_follows_policy (cfg : Config) (clk : Clock) (d : ApiData) :
  d_success d = true ->
  d_status d = Some 1 ->
  metric_codes cfg (metrics_of clk d)
  = ((if ping_missing d then ["ping_null"] else [])
     ++ (if ping_above_max cfg d then ["ping_high"] else [])
     ++ (if servers_below_min cfg d then ["servers_low"] else [])
     ++ (if data_too_old cfg clk d then ["data_old"] else []))%list
  /\ status_of (analyze_acc_status cfg clk d)
     = policy_status (ping_missing d) (ping_above_max cfg d)
         (servers_below_min cfg d) (data_too_old cfg clk d).
Proof.
  intros Hok Hup. split.
  - apply metric_codes_of_reading.
  - apply status_of_up_reading; assumption.
Qed.

(** C6. On a successful fetch, raw status 0 is DOWN and raw status -1 is
    UNKNOWN whatever the ping, the counts and the data age are, and a raw
    status other than 1, 0 and -1 (an absent one included) is API_ERROR;
    only raw status 1 reaches the quality checks, so for every other raw
    status the thresholds do not matter either. *)
Theorem raw_status_mapping (cfg : Config) (clk : Clock) (d : ApiData) :
  d_success d = true ->
  (d_status d = Some 0 -> status_of (analyze_acc_status cfg clk d) = DOWN)
  /\ (d_status d = Some (-1) ->
      status_of (analyze_acc_status cfg clk d) = UNKNOWN)
  /\ (d_status d <> Some 1 -> d_status d <> Some 0 -> d_status d <> Some (-1) ->
      status_of (analyze_acc_status cfg clk d) = API_ERROR)
  /\ (d_status d <> Some 1 ->
      forall (cfg' : Config) (clk' : Clock),
        status_of (analyze_acc_status cfg' clk' d)
        = status_of (analyze_acc_status cfg clk d)).
Proof.
  intros Hok.
  unfold analyze_acc_status. rewrite Hok. simpl.
  unfold determine_overall_status, metrics_of. simpl.
  repeat split.
  - intros ->. reflexivity.
  - intros ->. reflexivity.
  - intros H1 H0 Hm. destruct (d_status d) as [v|]; simpl; [|reflexivity].
    destruct (Z.eqb_spec v 0) as [->|_]; [congruence|].
    destruct (Z.eqb_spec v (-1)) as [->|_]; [congruence|].
    destruct (Z.eqb_spec v 1) as [->|_]; [congruence|]. reflexivity.
  - intros H1 cfg' clk'. destruct (d_status d) as [v|]; simpl; [|reflexivity].
    destruct (Z.eqb_spec v 0) as [->|_]; [reflexivity|].
    destruct (Z.eqb_spec v (-1)) as [->|_]; [reflexivity|].
    destruct (Z.eqb_spec v 1) as [->|_]; [congruence|]. reflexivity.
Qed.

(** C8. The warning thresholds do not reach the status: classifying a
    reading under two configurations that differ only in [warning_ping]
    and [warning_servers] gives the same status. *)
Theorem warning_thresholds_do_not_affect_status
    (cfg : Config) (clk : Clock) (d : ApiData) (wp ws : Z) :
  status_of (analyze_acc_status (with_warnings cfg wp ws) clk d)
  = status_of (analyze_acc_status cfg clk d).
Proof.
  unfold analyze_acc_status.
  destruct (d_success d); reflexivity.
Qed.

(** C10. A successfully fetched reading with raw status 1 and no
    [servers] key is classified with a server count of 0: under a positive
    minimum the code 'servers_low' is raised and the status is never UP;
    it is DEGRADED when the ping is present and within the maximum and the
    data is fresh, DOWN otherwise. *)
Theorem missing_servers_count_is_zero (cfg : Config) (clk : Clock) (d : ApiData) :
  d_success d = true ->
  d_status d = Some 1 ->
  d_servers d = None ->
  0 < min_servers_expected cfg ->
  servers_count (metrics_of clk d) = 0
  /\ In "servers_low" (metric_codes cfg (metrics_of clk d))
  /\ status_of (analyze_acc_status cfg clk d) <> UP
  /\ status_of (analyze_acc_status cfg clk d)
     = if (negb (ping_missing d) && negb (ping_above_max cfg d)
           && negb (data_too_old cfg clk d))%bool
       then DEGRADED else DOWN.
Proof.
  intros Hok Hup Hnone Hmin.
  assert (Hlow : servers_below_min cfg d = true).
  { unfold servers_below_min. rewrite Hnone. simpl. apply Z.ltb_lt. exact Hmin. }
  rewrite (status_of_up_reading cfg clk d Hok Hup), Hlow.
  split; [unfold metrics_of; simpl; rewrite Hnone; reflexivity|].
  split.
  { unfold metric_codes, metrics_of. simpl. rewrite Hnone. simpl.
    apply Z.ltb_lt in Hmin. rewrite Hmin.
    apply in_or_app. right. apply in_or_app. left. left. reflexivity. }
  destruct (ping_missing d) eqn:Hm; destruct (ping_above_max cfg d) eqn:Hh;
    destruct (data_too_old cfg clk d); simpl; split;
    try discriminate; try reflexivity.
  all: unfold ping_missing, ping_above_max in *;
       destruct (d_ping d); discriminate.
Qed.

(** ** Fetch failures *)

(** The outcomes of the fetch that are not a 200 response with a JSON
    object are exactly those [fetch_api_data] marks as failed, and each
    carries a reason. *)
Lemma fetch_failure_has_reason (o : FetchOutcome) :
  d_success (fetch_api_data o) = false ->
  exists reason, d_error (fetch_api_data o) = Some reason.
Proof.
  destruct o as [code reason body elapsed| | |msg]; simpl.
  - destruct (code =? 200); simpl.
    + destruct body as [p|]; simpl; [discriminate|].
      intros _. eexists. reflexivity.
    + intros _. eexists. reflexivity.
  - intros _. eexists. reflexivity.
  - intros _. eexists. reflexivity.
  - intros _. eexists. reflexivity.
Qed.

Lemma fetch_success_iff (o : FetchOutcome) :
  d_success (fetch_api_data o) = true <->
  exists reason p elapsed, o = Responded 200 reason (Some p) elapsed.
Proof.
  split.
  - destruct o as [code reason body elapsed| | |msg]; simpl; try discriminate.
    destruct (Z.eqb_spec code 200) as [->|Hne]; simpl; [|discriminate].
    destruct body as [p|]; simpl; [|discriminate].
    intros _. exists reason, p, elapsed. reflexivity.
  - intros (reason & p & elapsed & ->). reflexivity.
Qed.

(** C4 (amended). For every fetch failure (time-out, connection error,
    body that is not JSON, response other than 200, unexpected error) the
    classifier returns the analysis of source 'api_error': its status is
    API_ERROR, its [reason] key holds the fetch error reason, it has no
    [issues] key (so the issues read from it are the empty list), and no
    quality check runs: the result is the same under every
    configuration. *)
Theorem fetch_failure_is_api_error (cfg : Config) (clk : Clock) (o : FetchOutcome) :
  d_success (fetch_api_data o) = false ->
  exists reason,
    d_error (fetch_api_data o) = Some reason
    /\ analyze_acc_status cfg clk (fetch_api_data o)
       = ErrorAnalysis reason (now_stamp clk)
    /\ status_of (analyze_acc_status cfg clk (fetch_api_data o)) = API_ERROR
    /\ reason_key (analyze_acc_status cfg clk (fetch_api_data o)) = Some reason
    /\ issues_key (analyze_acc_status cfg clk (fetch_api_data o)) = None
    /\ get_issues (analyze_acc_status cfg clk (fetch_api_data o)) = []
    /\ forall cfg' : Config,
         analyze_acc_status cfg' clk (fetch_api_data o)
         = analyze_acc_status cfg clk (fetch_api_data o).
Proof.
  intros Hfail.
  destruct (fetch_failure_has_reason o Hfail) as [reason Hreason].
  exists reason. unfold analyze_acc_status.
  rewrite Hfail, Hreason. simpl. repeat split; reflexivity.
Qed.

(** ** Data age *)

(** C5 (amended). For a successfully fetched reading whose [date] is
    present and not empty but cannot be parsed, the data age is the
    sentinel 999; under any maximum below 999 it is too old, the code
    'data_old' is raised and a reading with raw status 1 is DOWN, not UP.
    When [date] is absent or empty the data age is 0 and under a maximum
    that is not negative the data is not too old. *)
Theorem data_age_of_bad_date (cfg : Config) (clk : Clock) (d : ApiData) :
  d_success d = true ->
  (forall s : string,
      d_date d = Some s -> s <> EmptyString -> fromisoformat (replace_Z s) = None ->
      max_data_age_minutes cfg < 999 ->
      data_age_minutes (metrics_of clk d) = PyInt 999
      /\ data_too_old cfg clk d = true
      /\ In "data_old" (metric_codes cfg (metrics_of clk d))
      /\ (d_status d = Some 1 ->
          status_of (analyze_acc_status cfg clk d) = DOWN))
  /\ (truthy_str (d_date d) = false ->
      0 <= max_data_age_minutes cfg ->
      data_age_minutes (metrics_of clk d) = PyInt 0
      /\ data_too_old cfg clk d = false
      /\ ~ In "data_old" (metric_codes cfg (metrics_of clk d))).
Proof.
  intros Hok. split.
  - intros s Hdate Hne Hparse Hmax.
    assert (Hage : round_1 (compute_data_age clk (d_date d)) = PyInt 999).
    { unfold compute_data_age. rewrite Hdate. simpl.
      destruct (String.eqb_spec s EmptyString) as [He|_]; [contradiction|]. simpl.
      rewrite Hparse. reflexivity. }
    assert (Hold : data_too_old cfg clk d = true).
    { unfold data_too_old. rewrite Hage. simpl. apply Z.ltb_lt. exact Hmax. }
    split; [exact Hage|]. split; [exact Hold|]. split.
    + rewrite metric_codes_of_reading, Hold.
      apply in_or_app. right. apply in_or_app. right.
      apply in_or_app. right. left. reflexivity.
    + intros Hup. rewrite (status_of_up_reading cfg clk d Hok Hup), Hold.
      destruct (ping_missing d), (ping_above_max cfg d),
        (servers_below_min cfg d); reflexivity.
  - intros Hfalsy Hmax.
    assert (Hage : round_1 (compute_data_age clk (d_date d)) = PyInt 0).
    { unfold compute_data_age. rewrite Hfalsy. reflexivity. }
    assert (Hold : data_too_old cfg clk d = false).
    { unfold data_too_old. rewrite Hage. simpl. apply Z.ltb_ge. exact Hmax. }
    split; [exact Hage|]. split; [exact Hold|].
    rewrite metric_codes_of_reading, Hold.
    destruct (ping_missing d), (ping_above_max cfg d),
      (servers_below_min cfg d); simpl; intuition discriminate.
Qed.

(** ** Determinism *)

(** C9 (amended). The status is a function of the reading, the thresholds
    and the UTC clock reading: two classifications of the same reading
    under the same thresholds at the same UTC instant give the same
    status, whatever the local time stamp and the webhook are, and two runs
    that fetch the same response at the same UTC instant classify it alike
    whatever the files, the environment and the outcome of the POST are. *)
Theorem status_is_function_of_reading_thresholds_clock
    (cfg : Config) (clk1 clk2 : Clock) (d : ApiData) :
  utc_now clk1 = utc_now clk2 ->
  (forall webhook : option string,
      status_of (analyze_acc_status cfg clk1 d)
      = status_of (analyze_acc_status
                     {| max_acceptable_ping := max_acceptable_ping cfg;
                        min_servers_expected := min_servers_expected cfg;
                        max_data_age_minutes := max_data_age_minutes cfg;
                        warning_ping := warning_ping cfg;
                        warning_servers := warning_servers cfg;
                        discord_webhook := webhook |} clk2 d))
  /\ (forall (w1 w2 : Outside) (fs1 fs2 : Files),
         fetch w1 = fetch w2 -> clock w1 = clk1 -> clock w2 = clk2 ->
         status_of (analysis_of (run cfg w1 fs1))
         = status_of (analysis_of (run cfg w2 fs2))).
Proof.
  intros Hclk.
  assert (Hage : forall date, compute_data_age clk1 date = compute_data_age clk2 date).
  { intros date. unfold compute_data_age. rewrite Hclk. reflexivity. }
  assert (Hst : forall cfg' d', 
             determine_overall_status cfg' (metrics_of clk1 d')
             = determine_overall_status cfg' (metrics_of clk2 d')).
  { intros cfg' d'. unfold determine_overall_status, metric_codes, metrics_of.
    simpl. rewrite Hage. reflexivity. }
  split.
  - intros webhook. unfold analyze_acc_status.
    destruct (d_success d); simpl; [|reflexivity].
    rewrite Hst. reflexivity.
  - intros w1 w2 fs1 fs2 Hfetch Hc1 Hc2.
    unfold run, analysis_of.
    repeat match goal with
           | |- context [let '(_, _) := ?e in _] => destruct e
           end.
    simpl. rewrite Hfetch, Hc1, Hc2. unfold analyze_acc_status.
    destruct (d_success (fetch_api_data (fetch w2))); simpl; [|reflexivity].
    rewrite Hst. reflexivity.
Qed.

(** ** Change detection and persistence *)

(** The value bound to [significant_change] is truthy for every last
    status, current status and force flag. *)
Lemma significant_change_truthy (last : option string) (current : string)
    (force_env : option string) :
  truthy_tuple (significant_change last current force_env) = true.
Proof. reflexivity. Qed.

Lemma save_metrics_history_keeps_status (fs : Files) (a : Analysis) (ok : bool) :
  status_file (fst (save_metrics_history fs a ok)) = status_file fs.
Proof.
  unfold save_metrics_history.
  destruct (metrics_file fs); destruct ok; reflexivity.
Qed.

Lemma delivery_failed_iff (cfg : Config) (p : PostOutcome) (a : Analysis) :
  delivery_failed cfg p a <-> fst (send_discord_notification cfg p a) = false.
Proof.
  unfold delivery_failed, send_discord_notification.
  destruct (truthy_str (discord_webhook cfg)); simpl.
  - destruct (create_discord_embed a) as [e|]; simpl.
    + destruct p as [code reason|msg]; simpl.
      * destruct (Z.eqb_spec code 204) as [->|Hne]; simpl.
        -- split; [|discriminate].
           intros [H|[H|[[m H]|(c & r & H & Hc)]]]; try discriminate.
           inversion H. subst. contradiction.
        -- split; [reflexivity|]. intros _. right. right. right.
           exists code, reason. split; [reflexivity|exact Hne].
      * split; [reflexivity|]. intros _. right. right. left.
        exists msg. reflexivity.
    + split; [reflexivity|]. intros _. right. left. reflexivity.
  - split; [reflexivity|]. intros _. left. reflexivity.
Qed.

(** A status label has no white space to strip. *)
Lemma strip_label (st : Status) : strip (label st) = label st.
Proof. destruct st; reflexivity. Qed.

(** The outcomes of the fetch that count as failures. *)
Lemma fetch_failure_kinds :
  d_success (fetch_api_data TimedOut) = false
  /\ d_success (fetch_api_data ConnectionFailed) = false
  /\ (forall msg, d_success (fetch_api_data (Raised msg)) = false)
  /\ (forall reason elapsed,
         d_success (fetch_api_data (Responded 200 reason None elapsed)) = false)
  /\ (forall code reason body elapsed,
         code <> 200 ->
         d_success (fetch_api_data (Responded code reason body elapsed)) = false).
Proof.
  repeat split.
  intros code reason body elapsed Hne. simpl.
  destruct (Z.eqb_spec code 200) as [He|_]; [contradiction|reflexivity].
Qed.

(** The status file after a run, by the result of the delivery. *)
Lemma status_file_after_run (cfg : Config) (w : Outside) (fs : Files) :
  status_file (files_of (run cfg w fs))
  = if (fst (send_discord_notification cfg (post w) (run_analysis cfg w))
        && status_write_ok w)%bool
    then Some (label (status_of (run_analysis cfg w)))
    else status_file fs.
Proof.
  unfold run, files_of, run_analysis. simpl.
  destruct (send_discord_notification cfg (post w)
              (analyze_acc_status cfg (clock w) (fetch_api_data (fetch w))))
    as [sent ev_send].
  destruct sent; simpl.
  - unfold save_status. destruct (status_write_ok w); simpl.
    + match goal with
      | |- context [save_metrics_history ?f ?a ?ok] =>
          pose proof (save_metrics_history_keeps_status f a ok) as Hk;
          destruct (save_metrics_history f a ok)
      end. simpl in *. exact Hk.
    + match goal with
      | |- context [save_metrics_history ?f ?a ?ok] =>
          pose proof (save_metrics_history_keeps_status f a ok) as Hk;
          destruct (save_metrics_history f a ok)
      end. simpl in *. exact Hk.
  - match goal with
    | |- context [save_metrics_history ?f ?a ?ok] =>
        pose proof (save_metrics_history_keeps_status f a ok) as Hk;
        destruct (save_metrics_history f a ok)
    end. simpl in *. exact Hk.
Qed.

(** The last status the next run reads, by the result of the delivery. *)
Lemma last_status_after_run (cfg : Config) (w : Outside) (fs : Files) :
  get_last_status (files_of (run cfg w fs))
  = if (fst (send_discord_notification cfg (post w) (run_analysis cfg w))
        && status_write_ok w)%bool
    then Some (label (status_of (run_analysis cfg w)))
    else get_last_status fs.
Proof.
  unfold get_last_status at 1. rewrite status_file_after_run.
  destruct (fst (send_discord_notification cfg (post w) (run_analysis cfg w))
            && status_write_ok w)%bool; [|reflexivity].
  rewrite strip_label. reflexivity.
Qed.

(** C3. When the delivery of the notification fails (no webhook, an
    exception, an answer other than 204) the run leaves the last-status
    file as it was; the file changes only when the notify decision was
    taken and the delivery succeeded, and then it holds the new status.
    The last status read back changes only when, in addition, the rule of
    the change detector asks for a notification. *)
Theorem failed_delivery_keeps_last_status (cfg : Config) (w : Outside) (fs : Files) :
  (delivery_failed cfg (post w) (run_analysis cfg w) ->
   status_file (files_of (run cfg w fs)) = status_file fs)
  /\ (status_file (files_of (run cfg w fs)) <> status_file fs ->
      truthy_tuple (significant_change (get_last_status fs)
                     (label (status_of (run_analysis cfg w)))
                     (force_notification w)) = true
      /\ fst (send_discord_notification cfg (post w) (run_analysis cfg w)) = true
      /\ status_file (files_of (run cfg w fs))
         = Some (label (status_of (run_analysis cfg w))))
  /\ (get_last_status (files_of (run cfg w fs)) <> get_last_status fs ->
      fst (send_discord_notification cfg (post w) (run_analysis cfg w)) = true
      /\ forall force : bool,
           notify_rule (get_last_status fs)
             (label (status_of (run_analysis cfg w))) force = true).
Proof.
  rewrite last_status_after_run, status_file_after_run. split; [|split].
  - intros Hfail. apply delivery_failed_iff in Hfail. rewrite Hfail. reflexivity.
  - destruct (fst (send_discord_notification cfg (post w) (run_analysis cfg w)));
      simpl.
    + destruct (status_write_ok w); [|intros H; contradiction H; reflexivity].
      intros _. repeat split; reflexivity.
    + intros H. contradiction H. reflexivity.
  - destruct (fst (send_discord_notification cfg (post w) (run_analysis cfg w)));
      simpl.
    + destruct (status_write_ok w); [|intros H; contradiction H; reflexivity].
      intros Hchanged. split; [reflexivity|].
      intros force. unfold notify_rule.
      destruct (get_last_status fs) as [last|]; [|reflexivity].
      destruct (String.eqb_spec last (label (status_of (run_analysis cfg w))))
        as [->|_]; [contradiction Hchanged; reflexivity|reflexivity].
    + intros H. contradiction H. reflexivity.
Qed.

(** C7. Saving an analysis to a history file appends it at the end and
    keeps the last 200 entries: the new history has
    min (previous length + 1, 200) entries, it is the end of the previous
    history followed by the new analysis, and when the previous history
    held 200 entries its oldest entry is dropped and the length stays
    200. *)
Theorem history_is_appended_and_capped (fs : Files) (a : Analysis)
    (h : list Analysis) :
  metrics_file fs = History h ->
  exists h' : list Analysis,
    metrics_file (fst (save_metrics_history fs a true)) = History h'
    /\ List.length h' = Nat.min (List.length h + 1) 200
    /\ (exists dropped, (h ++ [a] = dropped ++ h')%list)
    /\ (exists kept, h' = (kept ++ [a])%list
                     /\ exists dropped, h = (dropped ++ kept)%list)
    /\ ((List.length h < 200)%nat -> h' = (h ++ [a])%list)
    /\ (List.length h = 200%nat ->
        h' = (tl h ++ [a])%list /\ List.length h' = 200%nat).
Proof.
  intros Hfile. exists (slice_last 200 (h ++ [a])).
  unfold save_metrics_history. rewrite Hfile. simpl.
  split; [reflexivity|]. split.
  { rewrite length_slice_last, length_app. reflexivity. }
  split.
  { eexists. symmetry. apply slice_last_suffix. }
  split.
  { exists (slice_last 199 h). split; [apply slice_last_snoc|].
    eexists. symmetry. apply slice_last_suffix. }
  split.
  { intros Hlt. apply slice_last_short. rewrite length_app. simpl. lia. }
  intros Hlen. split.
  - apply slice_last_full_snoc. exact Hlen.
  - rewrite length_slice_last, length_app. simpl. lia.
Qed.

(** ** Further properties of the classifier *)

(** The status of any reading, in one formula. *)
Lemma status_of_analysis (cfg : Config) (clk : Clock) (d : ApiData) :
  status_of (analyze_acc_status cfg clk d)
  = if negb (d_success d) then API_ERROR
    else if py_eq (d_status d) 0 then DOWN
    else if py_eq (d_status d) (-1) then UNKNOWN
    else if negb (py_eq (d_status d) 1) then API_ERROR
    else policy_status (ping_missing d) (ping_above_max cfg d)
           (servers_below_min cfg d) (data_too_old cfg clk d).
Proof.
  destruct (d_success d) eqn:Hok; simpl.
  - destruct (py_eq (d_status d) 1) eqn:Hup.
    + assert (Hst : d_status d = Some 1).
      { unfold py_eq in Hup. destruct (d_status d) as [v|]; [|discriminate].
        apply Z.eqb_eq in Hup. subst. reflexivity. }
      rewrite (status_of_up_reading cfg clk d Hok Hst), Hst. reflexivity.
    + unfold analyze_acc_status. rewrite Hok. simpl.
      unfold determine_overall_status, metrics_of. simpl. rewrite Hup.
      destruct (py_eq (d_status d) 0); [reflexivity|].
      destruct (py_eq (d_status d) (-1)); reflexivity.
  - unfold analyze_acc_status. rewrite Hok. reflexivity.
Qed.

Lemma py_eq_true (o : option Z) (z : Z) : py_eq o z = true <-> o = Some z.
Proof.
  unfold py_eq. destruct o as [v|].
  - rewrite Z.eqb_eq. split; [intros ->; reflexivity|intros H; inversion H; reflexivity].
  - split; discriminate.
Qed.

(** When a reading is classified UP. *)
Lemma status_up_characterised (cfg : Config) (clk : Clock) (d : ApiData) :
  status_of (analyze_acc_status cfg clk d) = UP <->
  d_success d = true
  /\ d_status d = Some 1
  /\ (exists p, d_ping d = Some p /\ p <= max_acceptable_ping cfg)
  /\ min_servers_expected cfg <= get_default (d_servers d) 0
  /\ data_too_old cfg clk d = false.
Proof.
  rewrite status_of_analysis. split.
  - destruct (d_success d); simpl; [|discriminate].
    destruct (py_eq (d_status d) 0); [discriminate|].
    destruct (py_eq (d_status d) (-1)); [discriminate|].
    destruct (py_eq (d_status d) 1) eqn:Hup; simpl; [|discriminate].
    apply py_eq_true in Hup.
    unfold ping_missing, ping_above_max, servers_below_min.
    destruct (d_ping d) as [p|];
      [destruct (Z.ltb_spec (max_acceptable_ping cfg) p)|];
      destruct (Z.ltb_spec (get_default (d_servers d) 0) (min_servers_expected cfg));
      destruct (data_too_old cfg clk d); simpl; try discriminate.
    intros _. repeat split; try assumption.
    exists p. split; [reflexivity|assumption].
  - intros (Hok & Hup & (p & Hp & Hle) & Hsrv & Hold).
    rewrite Hok, Hup, Hold. simpl.
    unfold ping_missing, ping_above_max, servers_below_min. rewrite Hp.
    destruct (Z.ltb_spec (max_acceptable_ping cfg) p); [lia|].
    destruct (Z.ltb_spec (get_default (d_servers d) 0) (min_servers_expected cfg));
      [lia|]. reflexivity.
Qed.

(** X1. A reading is classified UP exactly when the fetch succeeded, the
    raw status is 1, the ping is present and not above the maximum, the
    server count (0 when absent) is not below the minimum and the data age
    is not above the maximum. *)
Theorem status_up_iff (cfg : Config) (clk : Clock) (d : ApiData) :
  status_of (analyze_acc_status cfg clk d) = UP <->
  d_success d = true
  /\ d_status d = Some 1
  /\ (exists p, d_ping d = Some p /\ p <= max_acceptable_ping cfg)
  /\ min_servers_expected cfg <= get_default (d_servers d) 0
  /\ data_too_old cfg clk d = false.
Proof.
  exact (status_up_characterised cfg clk d).
Qed.

(** X2. A reading is classified DEGRADED exactly when the fetch succeeded,
    the raw status is 1, the ping is present, the data is not too old and
    exactly one of 'ping above the maximum' and 'server count below the
    minimum' holds. *)
Theorem status_degraded_iff (cfg : Config) (clk : Clock) (d : ApiData) :
  status_of (analyze_acc_status cfg clk d) = DEGRADED <->
  d_success d = true
  /\ d_status d = Some 1
  /\ ping_missing d = false
  /\ data_too_old cfg clk d = false
  /\ xorb (ping_above_max cfg d) (servers_below_min cfg d) = true.
Proof.
  rewrite status_of_analysis. split.
  - destruct (d_success d); simpl; [|discriminate].
    destruct (py_eq (d_status d) 0); [discriminate|].
    destruct (py_eq (d_status d) (-1)); [discriminate|].
    destruct (py_eq (d_status d) 1) eqn:Hup; simpl; [|discriminate].
    apply py_eq_true in Hup.
    destruct (ping_missing d), (ping_above_max cfg d),
      (servers_below_min cfg d), (data_too_old cfg clk d);
      simpl; try discriminate; intros _; repeat split; assumption.
  - intros (Hok & Hup & Hmiss & Hold & Hxor).
    rewrite Hok, Hup, Hmiss, Hold. simpl.
    destruct (ping_above_max cfg d), (servers_below_min cfg d);
      simpl in *; try discriminate; reflexivity.
Qed.

(** [identify_issues] appends at most one message per group. *)
Lemma identify_issues_length (cfg : Config) (m : Metrics) :
  (List.length (identify_issues cfg m) <= 4)%nat.
Proof.
  unfold identify_issues. repeat rewrite length_app.
  repeat match goal with
         | |- context [if ?b then _ else _] => destruct b
         | |- context [match ?o with Some _ => _ | None => _ end] => destruct o
         end; simpl; lia.
Qed.

(** X3. An analysis carries at most four issues: one about the raw
    status, one about the ping, one about the server count and one about
    the data age; so the first five issues are all of them. *)
Theorem at_most_four_issues (cfg : Config) (clk : Clock) (d : ApiData) :
  (List.length (get_issues (analyze_acc_status cfg clk d)) <= 4)%nat
  /\ firstn 5 (get_issues (analyze_acc_status cfg clk d))
     = get_issues (analyze_acc_status cfg clk d).
Proof.
  assert (Hlen : (List.length (get_issues (analyze_acc_status cfg clk d)) <= 4)%nat).
  { unfold analyze_acc_status.
    destruct (d_success d); simpl; [|lia].
    unfold get_issues, identify_issues. simpl.
    repeat rewrite length_app.
    repeat match goal with
           | |- context [if ?b then _ else _] => destruct b
           | |- context [match ?o with Some _ => _ | None => _ end] => destruct o
           end; simpl; lia. }
  split; [exact Hlen|].
  apply firstn_all2. lia.
Qed.

(** X4. With a maximum ping that is not negative, a successfully fetched
    reading whose raw status is 1, 0 or -1 and whose status is not UP
    carries at least one issue. *)
Theorem non_up_status_has_issue (cfg : Config) (clk : Clock) (d : ApiData) :
  d_success d = true ->
  d_status d = Some 1 \/ d_status d = Some 0 \/ d_status d = Some (-1) ->
  0 <= max_acceptable_ping cfg ->
  status_of (analyze_acc_status cfg clk d) <> UP ->
  get_issues (analyze_acc_status cfg clk d) <> [].
Proof.
  intros Hok Hraw Hmax Hnot.
  rewrite status_of_analysis in Hnot. rewrite Hok in Hnot. simpl in Hnot.
  unfold analyze_acc_status. rewrite Hok. simpl.
  unfold get_issues, identify_issues, metrics_of. simpl.
  destruct Hraw as [Hst|[Hst|Hst]]; rewrite Hst in *; simpl in *;
    try discriminate.
  unfold ping_missing, ping_above_max, servers_below_min, data_too_old in Hnot.
  destruct (d_ping d) as [p|]; simpl; [|discriminate].
  destruct (Z.ltb_spec (max_acceptable_ping cfg) p) as [Hhigh|_].
  { destruct (Z.eqb_spec p 0) as [->|_]; [lia|]. simpl. discriminate. }
  rewrite Bool.andb_false_r.
  set (low := get_default (d_servers d) 0 <? min_servers_expected cfg) in *.
  set (old := num_gt (round_1 (compute_data_age clk (d_date d)))
                (max_data_age_minutes cfg)) in *.
  set (warn := (negb (p =? 0) && (warning_ping cfg <? p))%bool).
  set (decr := get_default (d_servers d) 0 <? warning_servers cfg).
  clearbody low old warn decr.
  destruct low, old, warn, decr; simpl in *; try discriminate;
    contradiction Hnot; reflexivity.
Qed.

(** X5. An analysis of status UP carries only warnings: the ping warning
    when the ping is not 0 and above the warning threshold, and the
    'servers count decreasing' message when the server count is below the
    warning threshold; never a critical message. *)
Theorem up_status_reports_only_warnings (cfg : Config) (clk : Clock) (d : ApiData) :
  status_of (analyze_acc_status cfg clk d) = UP ->
  exists p,
    d_ping d = Some p
    /\ get_issues (analyze_acc_status cfg clk d)
       = ((if (negb (p =? 0) && (warning_ping cfg <? p))%bool
           then [("ACC ping warning: " ++ str_of_int p ++ "ms (> "
                    ++ str_of_int (warning_ping cfg) ++ "ms)")%string]
           else [])
          ++ (if get_default (d_servers d) 0 <? warning_servers cfg
              then [("ACC servers count decreasing ("
                       ++ str_of_int (get_default (d_servers d) 0) ++ ")")%string]
              else []))%list.
Proof.
  intros Hup. apply status_up_characterised in Hup.
  destruct Hup as (Hok & Hst & (p & Hp & Hle) & Hsrv & Hold).
  exists p. split; [exact Hp|].
  unfold analyze_acc_status. rewrite Hok. simpl.
  unfold get_issues, identify_issues, metrics_of. simpl.
  unfold data_too_old in Hold. rewrite Hst, Hp, Hold. simpl.
  destruct (Z.ltb_spec (max_acceptable_ping cfg) p); [lia|].
  destruct (Z.ltb_spec (get_default (d_servers d) 0) (min_servers_expected cfg));
    [lia|].
  rewrite Bool.andb_false_r. rewrite app_nil_r. reflexivity.
Qed.

(** X6. The fetch reports success exactly for a 200 response with a JSON
    object, and then hands its fields on unchanged with the measured
    request time; every failed fetch carries a reason and none of the data
    fields. *)
Theorem fetch_api_data_outcome (o : FetchOutcome) :
  (d_success (fetch_api_data o) = true <->
   exists reason p elapsed, o = Responded 200 reason (Some p) elapsed)
  /\ (forall reason p elapsed,
         o = Responded 200 reason (Some p) elapsed ->
         d_status (fetch_api_data o) = p_status p
         /\ d_ping (fetch_api_data o) = p_ping p
         /\ d_servers (fetch_api_data o) = p_servers p
         /\ d_players (fetch_api_data o) = p_players p
         /\ d_date (fetch_api_data o) = p_date p
         /\ d_down_since (fetch_api_data o) = p_down_since p
         /\ d_request_time (fetch_api_data o) = Some elapsed
         /\ d_error (fetch_api_data o) = None)
  /\ (d_success (fetch_api_data o) = false ->
      d_error (fetch_api_data o) <> None
      /\ d_status (fetch_api_data o) = None
      /\ d_ping (fetch_api_data o) = None
      /\ d_servers (fetch_api_data o) = None
      /\ d_players (fetch_api_data o) = None
      /\ d_date (fetch_api_data o) = None
      /\ d_down_since (fetch_api_data o) = None
      /\ d_request_time (fetch_api_data o) = None).
Proof.
  split; [|split].
  - split.
    + destruct o as [code reason body elapsed| | |msg]; simpl; try discriminate.
      destruct (Z.eqb_spec code 200) as [->|Hne]; simpl; [|discriminate].
      destruct body as [p|]; simpl; [|discriminate].
      intros _. exists reason, p, elapsed. reflexivity.
    + intros (reason & p & elapsed & ->). reflexivity.
  - intros reason p elapsed ->. simpl. repeat split; reflexivity.
  - destruct o as [code reason body elapsed| | |msg]; simpl;
      try (intros _; repeat split; try reflexivity; discriminate).
    destruct (code =? 200); simpl;
      [destruct body as [p|]; simpl; [discriminate|]|];
      intros _; repeat split; try reflexivity; discriminate.
Qed.

(** ** Further properties of a run *)

Lemma save_status_keeps_metrics (fs : Files) (st : string) (ok : bool) :
  metrics_file (fst (save_status fs st ok)) = metrics_file fs.
Proof. unfold save_status. destruct ok; reflexivity. Qed.

(** A run as its three steps: the notification events and the files they
    leave, followed by the save of the history. *)
Lemma run_unfold (cfg : Config) (w : Outside) (fs : Files) :
  exists (fs1 : Files) (ev1 : list Event),
    run cfg w fs
    = (run_analysis cfg w,
       fst (save_metrics_history fs1 (run_analysis cfg w) (metrics_write_ok w)),
       (ev1 ++ snd (save_metrics_history fs1 (run_analysis cfg w)
                      (metrics_write_ok w)))%list)
    /\ metrics_file fs1 = metrics_file fs
    /\ exists why,
         ev1 = (why :: snd (send_discord_notification cfg (post w)
                              (run_analysis cfg w))
                  ++ (if fst (send_discord_notification cfg (post w)
                                (run_analysis cfg w))
                      then snd (save_status fs (label (status_of (run_analysis cfg w)))
                                  (status_write_ok w)) ++ [LogStatusSaved]
                      else [LogStatusNotSaved]))%list
         /\ (why = LogFirstMonitoring
             \/ (exists last current, why = LogStatusChange last current)
             \/ (exists current, why = LogCriticalStatus current)).
Proof.
  unfold run, run_analysis. simpl.
  set (a := analyze_acc_status cfg (clock w) (fetch_api_data (fetch w))).
  set (why := match get_last_status fs with
              | Some last =>
                  if negb (String.eqb last (label (status_of a)))
                  then LogStatusChange last (label (status_of a))
                  else LogCriticalStatus (label (status_of a))
              | None => LogFirstMonitoring
              end).
  assert (Hwhy : why = LogFirstMonitoring
                 \/ (exists last current, why = LogStatusChange last current)
                 \/ (exists current, why = LogCriticalStatus current)).
  { unfold why. destruct (get_last_status fs) as [last|]; [|left; reflexivity].
    destruct (negb (String.eqb last (label (status_of a)))); right;
      [left|right]; eexists; try eexists; reflexivity. }
  destruct (send_discord_notification cfg (post w) a) as [sent ev_send].
  destruct sent; simpl.
  - pose proof (save_status_keeps_metrics fs (label (status_of a))
                  (status_write_ok w)) as Hm.
    destruct (save_status fs (label (status_of a)) (status_write_ok w))
      as [fs' ev_save]. simpl in *.
    exists fs'. exists (why :: ev_send ++ ev_save ++ [LogStatusSaved])%list. split.
    + destruct (save_metrics_history fs' a (metrics_write_ok w)). simpl. reflexivity.
    + split; [exact Hm|]. exists why. split; [reflexivity|exact Hwhy].
  - exists fs. exists (why :: ev_send ++ [LogStatusNotSaved])%list. split.
    + destruct (save_metrics_history fs a (metrics_write_ok w)). simpl. reflexivity.
    + split; [reflexivity|]. exists why. split; [reflexivity|exact Hwhy].
Qed.

(** The POST events of a run. *)
Lemma posts_of_run (cfg : Config) (w : Outside) (fs : Files) :
  filter is_post (events_of (run cfg w fs))
  = if truthy_str (discord_webhook cfg) then
      match create_discord_embed (run_analysis cfg w) with
      | Some e => [Post e]
      | None => []
      end
    else [].
Proof.
  destruct (run_unfold cfg w fs) as (fs1 & ev1 & Hrun & _ & why & Hev & Hwhy).
  rewrite Hrun. unfold events_of. simpl. rewrite filter_app.
  assert (Hhist : filter is_post
                    (snd (save_metrics_history fs1 (run_analysis cfg w)
                            (metrics_write_ok w))) = []).
  { unfold save_metrics_history.
    destruct (metrics_file fs1); destruct (metrics_write_ok w); reflexivity. }
  rewrite Hhist, app_nil_r, Hev. simpl.
  assert (Hw : is_post why = false).
  { destruct Hwhy as [->|[(l & c & ->)|(c & ->)]]; reflexivity. }
  rewrite Hw, filter_app.
  assert (Htail : filter is_post
                    (if fst (send_discord_notification cfg (post w)
                               (run_analysis cfg w))
                     then snd (save_status fs
                                 (label (status_of (run_analysis cfg w)))
                                 (status_write_ok w)) ++ [LogStatusSaved]
                     else [LogStatusNotSaved])%list = []).
  { destruct (fst (send_discord_notification cfg (post w) (run_analysis cfg w)));
      [|reflexivity].
    unfold save_status. destruct (status_write_ok w); reflexivity. }
  rewrite Htail, app_nil_r.
  unfold send_discord_notification.
  destruct (truthy_str (discord_webhook cfg)); simpl; [|reflexivity].
  destruct (create_discord_embed (run_analysis cfg w)) as [e|]; [|reflexivity].
  destruct (post w) as [code reason|msg]; simpl; [|reflexivity].
  destruct (code =? 204); reflexivity.
Qed.

(** X7. Whatever the notification does, a run returns the analysis it
    classified and, when the history file is absent or a list and the
    write succeeds, leaves that analysis as the last entry of the history,
    which keeps its last 200 entries. *)
Theorem run_appends_analysis_to_history (cfg : Config) (w : Outside) (fs : Files)
    (h : list Analysis) :
  metrics_file fs = History h \/ (metrics_file fs = NoFile /\ h = []) ->
  metrics_write_ok w = true ->
  analysis_of (run cfg w fs) = run_analysis cfg w
  /\ metrics_file (files_of (run cfg w fs))
     = History (slice_last 200 (h ++ [run_analysis cfg w])).
Proof.
  intros Hfile Hok.
  destruct (run_unfold cfg w fs) as (fs1 & ev1 & Hrun & Hm & _).
  rewrite Hrun. unfold analysis_of, files_of. simpl.
  split; [reflexivity|].
  unfold save_metrics_history. rewrite Hm, Hok.
  destruct Hfile as [->|[-> ->]]; reflexivity.
Qed.


(** X9. The value of FORCE_NOTIFICATION has no effect on a run, and no run
    takes the branch that skips the notification. *)
Theorem force_flag_has_no_effect (cfg : Config) (w : Outside) (fs : Files)
    (force_env : option string) :
  run cfg (with_force w force_env) fs = run cfg w fs
  /\ ~ In LogNoSignificantChange (events_of (run cfg w fs)).
Proof.
  split; [reflexivity|].
  destruct (run_unfold cfg w fs) as (fs1 & ev1 & Hrun & _ & why & Hev & Hwhy).
  rewrite Hrun. unfold events_of. simpl. rewrite Hev.
  intros Hin. apply in_app_or in Hin. destruct Hin as [Hin|Hin].
  - destruct Hin as [Hin|Hin].
    + destruct Hwhy as [->|[(l & c & ->)|(c & ->)]]; discriminate.
    + apply in_app_or in Hin. destruct Hin as [Hin|Hin].
      * unfold send_discord_notification in Hin.
        destruct (truthy_str (discord_webhook cfg)); simpl in Hin;
          [|intuition discriminate].
        destruct (create_discord_embed (run_analysis cfg w)); simpl in Hin;
          [|intuition discriminate].
        destruct (post w) as [code reason|msg]; simpl in Hin;
          [destruct (code =? 204); simpl in Hin|]; intuition discriminate.
      * destruct (fst (send_discord_notification cfg (post w)
                         (run_analysis cfg w))).
        -- unfold save_status in Hin. destruct (status_write_ok w);
             simpl in Hin; intuition discriminate.
        -- simpl in Hin. intuition discriminate.
  - unfold save_metrics_history in Hin.
    destruct (metrics_file fs1); destruct (metrics_write_ok w); simpl in Hin;
      intuition discriminate.
Qed.

(** X10. A run sends at most one POST, and it sends the message [e]
    exactly when a webhook is configured and [e] is the message built from
    the analysis, whatever the last status and the force flag are. *)
Theorem notification_posted_iff (cfg : Config) (w : Outside) (fs : Files) :
  (List.length (filter is_post (events_of (run cfg w fs))) <= 1)%nat
  /\ forall e : Embed,
       In (Post e) (events_of (run cfg w fs)) <->
       truthy_str (discord_webhook cfg) = true
       /\ create_discord_embed (run_analysis cfg w) = Some e.
Proof.
  pose proof (posts_of_run cfg w fs) as Hposts. split.
  - rewrite Hposts. destruct (truthy_str (discord_webhook cfg)); simpl; [|lia].
    destruct (create_discord_embed (run_analysis cfg w)); simpl; lia.
  - intros e. split.
    + intros Hin.
      assert (Hf : In (Post e) (filter is_post (events_of (run cfg w fs)))).
      { apply filter_In. split; [exact Hin|reflexivity]. }
      rewrite Hposts in Hf.
      destruct (truthy_str (discord_webhook cfg)); [|contradiction].
      destruct (create_discord_embed (run_analysis cfg w)) as [e'|];
        [|contradiction].
      destruct Hf as [Heq|[]]. inversion Heq. split; reflexivity.
    + intros [Hw He].
      assert (Hf : In (Post e) (filter is_post (events_of (run cfg w fs)))).
      { rewrite Hposts, Hw, He. left. reflexivity. }
      apply filter_In in Hf. exact (proj1 Hf).
Qed.

(** X11. After a failed fetch no message reaches Discord: the run sends no
    POST and leaves the last-status file as it was, although its status is
    API_ERROR. *)
Theorem fetch_failure_is_never_posted (cfg : Config) (w : Outside) (fs : Files) :
  d_success (fetch_api_data (fetch w)) = false ->
  status_of (analysis_of (run cfg w fs)) = API_ERROR
  /\ (forall e : Embed, ~ In (Post e) (events_of (run cfg w fs)))
  /\ status_file (files_of (run cfg w fs)) = status_file fs.
Proof.
  intros Hfail.
  assert (Ha : exists reason stamp, run_analysis cfg w = ErrorAnalysis reason stamp).
  { unfold run_analysis, analyze_acc_status. rewrite Hfail. simpl.
    eexists. eexists. reflexivity. }
  destruct Ha as (reason & stamp & Ha).
  destruct (run_unfold cfg w fs) as (fs1 & ev1 & Hrun & _).
  split; [|split].
  - rewrite Hrun. unfold analysis_of. simpl. rewrite Ha. reflexivity.
  - intros e Hin.
    assert (Hf : In (Post e) (filter is_post (events_of (run cfg w fs)))).
    { apply filter_In. split; [exact Hin|reflexivity]. }
    rewrite posts_of_run, Ha in Hf. simpl in Hf.
    destruct (truthy_str (discord_webhook cfg)); contradiction.
  - rewrite status_file_after_run.
    unfold send_discord_notification. rewrite Ha. simpl.
    destruct (truthy_str (discord_webhook cfg)); reflexivity.
Qed.

(** ** The last-status file *)





(** ** Exit code *)


(** ** The Discord message *)

(** X14. The colour and the title of the message identify the status: two
    analyses get the same colour, or the same title, only when they have
    the same status. *)
Theorem embed_identifies_status (a a' : Analysis) (e e' : Embed) :
  create_discord_embed a = Some e ->
  create_discord_embed a' = Some e' ->
  (e_color e = e_color e' <-> status_of a = status_of a')
  /\ (e_title e = e_title e' <-> status_of a = status_of a').
Proof.
  intros He He'.
  destruct a as [r s|m st l]; [discriminate|].
  destruct a' as [r' s'|m' st' l']; [discriminate|].
  simpl in *. inversion He. inversion He'. subst. clear He He'.
  destruct st, st'; simpl; split; split; intros H;
    try reflexivity; try discriminate.
Qed.

(** Case analysis on the membership of a field in the list of fields. *)
Ltac split_in H :=
  repeat match type of H with
         | In _ (_ ++ _) => apply in_app_or in H; destruct H as [H|H]
         | In _ (_ :: _) => destruct H as [H|H]
         | In _ [] => destruct H
         | _ \/ _ => destruct H as [H|H]
         | False => destruct H
         | In _ (match ?x with _ => _ end) => revert H; destruct x; intros H
         end.

(** X15. The fields of the message are built exactly when the message is,
    that is for every analysis of a successful fetch, and there are
    between seven and ten of them. *)
Theorem embed_fields_count (cfg : Config) (a : Analysis) :
  (embed_fields cfg a = None <-> create_discord_embed a = None)
  /\ forall fields : list Field,
       embed_fields cfg a = Some fields ->
       (7 <= List.length fields <= 10)%nat.
Proof.
  destruct a as [r stamp|m st issues]; simpl.
  - split; [split; reflexivity|discriminate].
  - split; [split; discriminate|].
    intros fields Hf. inversion Hf. clear Hf.
    repeat rewrite length_app. simpl.
    destruct (ping_ms m); destruct issues; simpl;
      destruct (truthy_str (down_since m)); simpl; try lia;
      destruct (down_since m) as [since|]; simpl; try lia;
      destruct (offline_hours_minutes (replace_Z since)) as [[hh mm]|];
      simpl; lia.
Qed.

(** X16. The message of an analysis made by the classifier shows every
    issue of the analysis, one per line: cutting the list at five entries
    drops nothing; without issues the message has no issues field. *)
Theorem embed_shows_every_issue (cfg cfg' : Config) (clk : Clock) (d : ApiData)
    (fields : list Field) :
  embed_fields cfg' (analyze_acc_status cfg clk d) = Some fields ->
  (get_issues (analyze_acc_status cfg clk d) <> [] ->
   In {| f_icon := IconWarning;
         f_name := "Issues Detected";
         f_value := "```" ++ newline
                    ++ String.concat newline
                         (map (fun issue => bullet ++ " " ++ issue)
                            (get_issues (analyze_acc_status cfg clk d)))
                    ++ "```";
         f_inline := false |} fields)
  /\ (get_issues (analyze_acc_status cfg clk d) = [] ->
      forall f, In f fields -> f_name f <> "Issues Detected").
Proof.
  unfold analyze_acc_status.
  destruct (d_success d); unfold negb; cbv beta iota zeta; [|discriminate].
  set (m := metrics_of clk d).
  pose proof (identify_issues_length cfg m) as Hlen.
  set (issues := identify_issues cfg m) in *. clearbody issues m.
  intros Hf. inversion Hf as [Heq]. clear Hf Heq. unfold get_issues. simpl.
  split.
  - intros Hne. destruct issues as [|i rest]; [contradiction Hne; reflexivity|].
    unfold issues_text. rewrite firstn_all2 by exact (Nat.le_trans _ _ _ Hlen (Nat.le_succ_diag_r 4)).
    do 3 right. apply in_or_app. right.
    do 4 right. apply in_or_app. left. left. reflexivity.
  - intros -> f Hin. split_in Hin; subst f; simpl; discriminate.
Qed.

(** X17. With a warning ping that is not above the maximum and a minimum
    server count that is not above the warning count, the lights of the
    message agree with the classifier: the ping field is red exactly when
    the ping is above the maximum, the servers field exactly when the
    count is below the minimum, and the data age field exactly when the
    data is too old. *)
Theorem lights_agree_with_thresholds (cfg : Config) (m : Metrics) (st : Status)
    (issues : list string) (fields : list Field) (f : Field) :
  warning_ping cfg <= max_acceptable_ping cfg ->
  min_servers_expected cfg <= warning_servers cfg ->
  embed_fields cfg (AccAnalysis m st issues) = Some fields ->
  In f fields ->
  (f_name f = "Ping Servers" ->
   exists p, ping_ms m = Some p
             /\ (f_icon f = IconRed <-> max_acceptable_ping cfg < p))
  /\ (f_name f = "Servers Online" ->
      (f_icon f = IconRed <-> servers_count m < min_servers_expected cfg))
  /\ (f_name f = "Data Age" ->
      (f_icon f = IconRed <->
       num_gt (data_age_minutes m) (max_data_age_minutes cfg) = true)).
Proof.
  intros Hping Hsrv Hf Hin. simpl in Hf. inversion Hf as [Heq]. clear Hf.
  subst fields.
  assert (Hp : forall p, ping_light cfg p = IconRed <-> max_acceptable_ping cfg < p).
  { intros p. unfold ping_light.
    destruct (Z.leb_spec p (warning_ping cfg));
      [split; [discriminate|lia]|].
    destruct (Z.leb_spec p (max_acceptable_ping cfg));
      [split; [discriminate|lia]|]. split; [lia|reflexivity]. }
  assert (Hs : servers_light cfg (servers_count m) = IconRed
               <-> servers_count m < min_servers_expected cfg).
  { unfold servers_light.
    destruct (Z.leb_spec (warning_servers cfg) (servers_count m));
      [split; [discriminate|lia]|].
    destruct (Z.leb_spec (min_servers_expected cfg) (servers_count m));
      [split; [discriminate|lia]|]. split; [lia|reflexivity]. }
  assert (Ha : age_light cfg (data_age_minutes m) = IconRed
               <-> num_gt (data_age_minutes m) (max_data_age_minutes cfg) = true).
  { unfold age_light.
    destruct (num_gt (data_age_minutes m) (max_data_age_minutes cfg)); simpl;
      split; try reflexivity; discriminate. }
  split_in Hin; subst f; simpl;
    (split; [|split]); intros Hname; try discriminate Hname;
    try exact Hs; try exact Ha.
  eexists. split; [reflexivity|apply Hp].
Qed.

(** ** The local test script *)

Lemma prefix_app_iff (p s : string) :
  String.prefix p s = true <-> exists r, s = p ++ r.
Proof.
  revert s. induction p as [|a p IH]; intros s.
  - split; [intros _; exists s; reflexivity|].
    intros _. destruct s; reflexivity.
  - destruct s as [|b s]; simpl.
    + split; [discriminate|]. intros [r Hr]. discriminate.
    + destruct (ascii_dec a b) as [Hab|Hne].
      * subst b. rewrite IH. split; intros [r Hr]; exists r.
        -- rewrite Hr. reflexivity.
        -- inversion Hr. reflexivity.
      * split; [discriminate|]. intros [r Hr]. congruence.
Qed.

Lemma split_on_length (c : ascii) (s : string) :
  List.length (split_on c s) = S (count_char c s).
Proof.
  induction s as [|a s IH]; [reflexivity|].
  simpl. destruct (Ascii.eqb a c); simpl.
  - rewrite IH. reflexivity.
  - destruct (split_on c s); simpl in *; [discriminate|exact IH].
Qed.

Lemma count_char_app (c : ascii) (s t : string) :
  count_char c (s ++ t) = (count_char c s + count_char c t)%nat.
Proof.
  induction s as [|a s IH]; [reflexivity|].
  simpl. rewrite IH. lia.
Qed.

Lemma count_char_one (c : ascii) (s : string) :
  count_char c s = 1%nat ->
  exists a b, s = a ++ String c b
              /\ count_char c a = 0%nat /\ count_char c b = 0%nat.
Proof.
  induction s as [|x s IH]; [discriminate|].
  simpl. destruct (Ascii.eqb_spec x c) as [->|Hne].
  - intros Hc. exists EmptyString, s. simpl.
    split; [reflexivity|]. split; [reflexivity|lia].
  - simpl. intros Hc. destruct (IH Hc) as (a & b & -> & Ha & Hb).
    exists (String x a), b. simpl.
    destruct (Ascii.eqb_spec x c) as [He|_]; [contradiction|].
    split; [reflexivity|]. split; [exact Ha|exact Hb].
Qed.

(** X18. [test_webhook_format] accepts exactly the URLs made of the
    Discord webhook prefix, an id, a slash and a token, where the id and
    the token contain no slash (either may be empty). *)
Theorem test_webhook_format_iff (webhook_url : string) :
  test_webhook_format webhook_url = true <->
  exists id token,
    webhook_url = webhook_prefix ++ id ++ "/" ++ token
    /\ count_char "/"%char id = 0%nat
    /\ count_char "/"%char token = 0%nat.
Proof.
  unfold test_webhook_format. split.
  - destruct (String.eqb webhook_url EmptyString); simpl; [discriminate|].
    destruct (String.prefix webhook_prefix webhook_url) eqn:Hp; simpl;
      [|discriminate].
    apply prefix_app_iff in Hp. destruct Hp as [r ->].
    rewrite split_on_length, count_char_app. intros Hlen.
    apply Nat.eqb_eq in Hlen.
    assert (Hr : count_char "/"%char r = 1%nat).
    { change (count_char "/"%char webhook_prefix) with 5%nat in Hlen. lia. }
    destruct (count_char_one _ _ Hr) as (id & token & -> & Hid & Htok).
    exists id, token. repeat split; assumption.
  - intros (id & token & -> & Hid & Htok).
    assert (Hp : String.prefix webhook_prefix
                   (webhook_prefix ++ id ++ "/" ++ token) = true).
    { apply prefix_app_iff. eexists. reflexivity. }
    rewrite Hp. simpl negb. 
    replace (String.eqb (webhook_prefix ++ id ++ "/" ++ token) EmptyString)
      with false by reflexivity.
    simpl orb. cbv iota.
    rewrite split_on_length, !count_char_app, Hid. simpl count_char at 2.
    rewrite Htok. reflexivity.
Qed.

(** X19. [test_analysis_logic] returns an analysis exactly for a response
    whose raw status is 1; for every other raw status, and for a missing
    response, it returns nothing. *)
Theorem test_analysis_logic_only_for_up (clk : Clock) (api_data : option Payload) :
  (exists t, test_analysis_logic clk api_data = Some t) <->
  exists p, api_data = Some p /\ p_status p = Some 1.
Proof.
  unfold test_analysis_logic. split.
  - intros [t Ht]. destruct api_data as [p|]; [|discriminate].
    exists p. split; [reflexivity|]. revert Ht.
    destruct (p_status p) as [v|]; simpl; [|discriminate].
    destruct (Z.eqb_spec v 0); [discriminate|].
    destruct (Z.eqb_spec v (-1)); [discriminate|].
    destruct (Z.eqb_spec v 1) as [->|]; [reflexivity|discriminate].
  - intros (p & -> & Hst). rewrite Hst. simpl. eexists. reflexivity.
Qed.

(** X20. For a response of raw status 1 whose data age is on the same side
    of 20 minutes before and after rounding, [test_analysis_logic] gives
    the status, the counts and the data age the monitor gives the same
    response under the thresholds of the test. *)
Theorem test_analysis_logic_agrees_with_monitor (clk : Clock) (p : Payload)
    (reason : string) (elapsed : Q) :
  p_status p = Some 1 ->
  num_gt (compute_data_age clk (p_date p)) 20
  = num_gt (round_1 (compute_data_age clk (p_date p))) 20 ->
  exists t m issues,
    test_analysis_logic clk (Some p) = Some t
    /\ analyze_acc_status test_config clk
         (fetch_api_data (Responded 200 reason (Some p) elapsed))
       = AccAnalysis m (t_status t) issues
    /\ t_ping_ms t = ping_ms m
    /\ t_servers_count t = servers_count m
    /\ t_players_count t = players_count m
    /\ t_data_age_minutes t = data_age_minutes m.
Proof.
  intros Hst Hround.
  set (d := fetch_api_data (Responded 200 reason (Some p) elapsed)).
  eexists.
  exists (metrics_of clk d), (identify_issues test_config (metrics_of clk d)).
  split.
  { unfold test_analysis_logic. rewrite Hst. simpl. reflexivity. }
  split; [|repeat split; reflexivity].
  unfold analyze_acc_status. simpl. f_equal.
  unfold determine_overall_status, metric_codes, metrics_of. simpl.
  rewrite Hst. simpl. rewrite Hround. reflexivity.
Qed.

(** ** Formatting *)

Lemma without_commas_of_list (l : list ascii) :
  without_commas (string_of_list_ascii l)
  = string_of_list_ascii (filter not_comma l).
Proof.
  induction l as [|c l IH]; [reflexivity|].
  simpl. unfold not_comma at 1.
  destruct (Ascii.eqb c ","%char); simpl; rewrite IH; reflexivity.
Qed.

Lemma filter_commas_rev (l : list ascii) (k : nat) :
  forallb not_comma l = true ->
  filter not_comma (commas_rev l k) = l.
Proof.
  revert k. induction l as [|c l IH]; intros k Hall; [reflexivity|].
  simpl in Hall. apply andb_prop in Hall. destruct Hall as [Hc Hl].
  simpl. destruct (Nat.eqb k 3); simpl; rewrite Hc, IH by exact Hl; reflexivity.
Qed.

Lemma filter_all (l : list ascii) :
  forallb not_comma l = true -> filter not_comma l = l.
Proof.
  induction l as [|c l IH]; [reflexivity|].
  simpl. intros Hall. apply andb_prop in Hall. destruct Hall as [Hc Hl].
  rewrite Hc, IH by exact Hl. reflexivity.
Qed.

Lemma uint_digits_no_comma (d : Decimal.uint) :
  forallb not_comma (list_ascii_of_string (NilEmpty.string_of_uint d)) = true.
Proof.
  induction d; simpl; try exact IHd; reflexivity.
Qed.

Lemma nilzero_digits_no_comma (d : Decimal.uint) :
  forallb not_comma (list_ascii_of_string (NilZero.string_of_uint d)) = true.
Proof.
  destruct d; try reflexivity; apply (uint_digits_no_comma (_ d)).
Qed.

Lemma forallb_rev (l : list ascii) :
  forallb not_comma (rev l) = forallb not_comma l.
Proof.
  induction l as [|c l IH]; [reflexivity|].
  simpl. rewrite forallb_app, IH. simpl.
  rewrite Bool.andb_true_r. apply Bool.andb_comm.
Qed.

Lemma filter_rev_comm (l : list ascii) :
  filter not_comma (rev l) = rev (filter not_comma l).
Proof.
  induction l as [|c l IH]; [reflexivity|].
  simpl. rewrite filter_app, IH. simpl.
  destruct (not_comma c); simpl; [reflexivity|apply app_nil_r].
Qed.

(** Grouping the digits of a natural number only inserts commas. *)
Lemma without_commas_grouped (d : Decimal.uint) :
  without_commas
    (string_of_list_ascii
       (rev (commas_rev
               (rev (list_ascii_of_string (NilZero.string_of_uint d))) 0)))
  = NilZero.string_of_uint d.
Proof.
  rewrite without_commas_of_list, filter_rev_comm, filter_commas_rev.
  - rewrite rev_involutive. apply string_of_list_ascii_of_string.
  - rewrite forallb_rev. apply nilzero_digits_no_comma.
Qed.

(** X21. The thousands format only inserts commas: without its commas the
    formatted number is the plain decimal number, sign included. *)
Theorem fmt_thousands_only_adds_commas (z : Z) :
  without_commas (fmt_thousands z) = str_of_int z.
Proof.
  unfold fmt_thousands, str_of_int.
  destruct z as [|n|n]; simpl Z.abs; simpl Z.ltb; cbv iota.
  - reflexivity.
  - apply (without_commas_grouped (Pos.to_uint n)).
  - change (without_commas
              (String "-"
                 (string_of_list_ascii
                    (rev (commas_rev
                            (rev (list_ascii_of_string
                                    (NilZero.string_of_uint (Pos.to_uint n))))
                            0))))
            = String "-" (NilZero.string_of_uint (Pos.to_uint n))).
    simpl. f_equal. apply without_commas_grouped.
Qed.

(** X22. The string handed to the date parser contains no 'Z': every 'Z'
    of the date has become '+00:00', five characters more each, and a date
    without 'Z' is handed on unchanged. *)
Theorem replace_Z_leaves_no_Z (s : string) :
  count_char "Z"%char (replace_Z s) = 0%nat
  /\ String.length (replace_Z s)
     = (String.length s + 5 * count_char "Z"%char s)%nat
  /\ (count_char "Z"%char s = 0%nat -> replace_Z s = s).
Proof.
  induction s as [|c r (IHz & IHl & IHid)]; [repeat split; reflexivity|].
  simpl. destruct (Ascii.eqb_spec c "Z"%char) as [->|Hne].
  - simpl. split; [exact IHz|]. split; [rewrite IHl; lia|discriminate].
  - simpl. destruct (Ascii.eqb_spec c "Z"%char) as [He|_]; [contradiction|].
    simpl. split; [exact IHz|]. split; [rewrite IHl; lia|].
    intros Hc. rewrite (IHid Hc). reflexivity.
Qed.

(** X23. A successfully fetched reading of raw status 0 lists 'ACC servers
    offline (API)' as its first issue, and one of raw status -1 lists 'ACC
    servers status unknown (API)' first; for no other raw status does
    either message appear first. *)
Theorem raw_status_issue_comes_first (cfg : Config) (clk : Clock) (d : ApiData) :
  d_success d = true ->
  (hd_error (get_issues (analyze_acc_status cfg clk d))
   = Some "ACC servers offline (API)" <-> d_status d = Some 0)
  /\ (hd_error (get_issues (analyze_acc_status cfg clk d))
      = Some "ACC servers status unknown (API)" <-> d_status d = Some (-1)).
Proof.
  intros Hok. unfold analyze_acc_status. rewrite Hok. simpl.
  unfold get_issues, identify_issues, metrics_of. simpl.
  destruct (py_eq (d_status d) 0) eqn:H0.
  { apply py_eq_true in H0. rewrite H0. simpl.
    split; split; try reflexivity; discriminate. }
  destruct (py_eq (d_status d) (-1)) eqn:Hm.
  { apply py_eq_true in Hm. rewrite Hm. simpl.
    split; split; try reflexivity; discriminate. }
  assert (Hn0 : d_status d <> Some 0).
  { intros H. apply py_eq_true in H. congruence. }
  assert (Hnm : d_status d <> Some (-1)).
  { intros H. apply py_eq_true in H. congruence. }
  simpl.
  split; (split; [|intros H; contradiction]);
    repeat match goal with
           | |- context [if ?b then _ else _] => destruct b
           | |- context [match ?o with Some _ => _ | None => _ end] => destruct o
           end; simpl; intros H; try discriminate H.
Qed.

End Monitor.

(** * The monitor on concrete inputs

    The classifier and the run with the reference datetime library. *)

Local Abbreviation ref_analyze :=
  (analyze_acc_status RefDatetime.fromisoformat RefDatetime.total_minutes
     RefDatetime.round1 RefDatetime.repr_float).

Local Abbreviation ref_metrics :=
  (metrics_of RefDatetime.fromisoformat RefDatetime.total_minutes
     RefDatetime.round1).

Local Abbreviation ref_run_analysis :=
  (run_analysis RefDatetime.fromisoformat RefDatetime.total_minutes
     RefDatetime.round1 RefDatetime.repr_float).

Local Abbreviation ref_run :=
  (run RefDatetime.fromisoformat RefDatetime.total_minutes
     RefDatetime.round1 RefDatetime.repr_float).

(** Ping 35, 1600 servers, data two minutes old: UP without issues. *)
Example healthy_reading_is_up :
  status_of (ref_analyze sample_config clock_0302 sample_reading) = UP
  /\ get_issues (ref_analyze sample_config clock_0302 sample_reading) = [].
Proof. split; reflexivity. Qed.

(** No ping on a reading with raw status 1: DOWN. *)
Example missing_ping_is_down :
  let a := ref_analyze sample_config clock_0302
             (reading_of (with_ping sample_payload None)) in
  status_of a = DOWN /\ get_issues a = ["ACC ping unavailable"].
Proof. split; reflexivity. Qed.

(** Only the server count below the minimum: DEGRADED. *)
Example low_servers_alone_is_degraded :
  let a := ref_analyze sample_config clock_0302
             (reading_of (with_servers sample_payload (Some 900))) in
  status_of a = DEGRADED
  /\ get_issues a = ["ACC servers count low: 900 (< 1000)"].
Proof. split; reflexivity. Qed.

(** A high ping and a low server count together: DOWN. *)
Example high_ping_and_low_servers_is_down :
  let a := ref_analyze sample_config clock_0302
             (reading_of (with_ping (with_servers sample_payload (Some 900))
                            (Some 200))) in
  status_of a = DOWN
  /\ get_issues a = ["ACC ping high: 200ms (> 150ms)";
                     "ACC servers count low: 900 (< 1000)"].
Proof. split; reflexivity. Qed.

(** Data twenty minutes old: the single issue 'data_old' is DOWN. *)
Example stale_reading_is_down :
  let a := ref_analyze sample_config clock_0320 sample_reading in
  status_of a = DOWN
  /\ get_issues a = ["ACC data too old: 20.0 minutes (> 15 minutes)"].
Proof. split; reflexivity. Qed.

(** The warning thresholds change the issues reported, not the status. *)
Example warning_thresholds_change_issues :
  let d := reading_of (with_ping sample_payload (Some 120)) in
  let a := ref_analyze sample_config clock_0302 d in
  let a' := ref_analyze (with_warnings sample_config 130 1200) clock_0302 d in
  get_issues a = ["ACC ping warning: 120ms (> 100ms)"]
  /\ get_issues a' = []
  /\ status_of a = UP /\ status_of a' = UP.
Proof. repeat split; reflexivity. Qed.

(** ** Instances of the classification theorems *)

Lemma up_reading_follows_policy_witness :
  d_success sample_reading = true
  /\ d_status sample_reading = Some 1
  /\ status_of (ref_analyze sample_config clock_0302 sample_reading) = UP.
Proof.
  split; [reflexivity|]. split; [reflexivity|].
  exact (proj2 (up_reading_follows_policy RefDatetime.fromisoformat
                  RefDatetime.total_minutes RefDatetime.round1
                  RefDatetime.repr_float sample_config clock_0302
                  sample_reading eq_refl eq_refl)).
Defined.

Lemma raw_status_mapping_witness :
  d_success down_reading = true
  /\ d_status down_reading = Some 0
  /\ status_of (ref_analyze sample_config clock_0302 down_reading) = DOWN.
Proof.
  split; [reflexivity|]. split; [reflexivity|].
  exact (proj1 (raw_status_mapping RefDatetime.fromisoformat
                  RefDatetime.total_minutes RefDatetime.round1
                  RefDatetime.repr_float sample_config clock_0302 down_reading
                  eq_refl)
           eq_refl).
Defined.

Lemma missing_servers_count_is_zero_witness :
  d_success no_servers_reading = true
  /\ d_status no_servers_reading = Some 1
  /\ d_servers no_servers_reading = None
  /\ 0 < min_servers_expected sample_config
  /\ servers_count (ref_metrics clock_0302 no_servers_reading) = 0
  /\ status_of (ref_analyze sample_config clock_0302 no_servers_reading)
     = DEGRADED.
Proof.
  split; [reflexivity|]. split; [reflexivity|]. split; [reflexivity|].
  split; [reflexivity|].
  destruct (missing_servers_count_is_zero RefDatetime.fromisoformat
              RefDatetime.total_minutes RefDatetime.round1
              RefDatetime.repr_float sample_config clock_0302
              no_servers_reading eq_refl eq_refl eq_refl eq_refl)
    as (Hzero & _ & _ & Hst).
  split; [exact Hzero|exact Hst].
Defined.

(** ** Fetch failures on concrete inputs *)

(** C4, as stated, fails: after a time-out the analysis has status
    API_ERROR and the reason 'API timeout', but it has no [issues] key and
    the issues read from it are not the list of that reason. *)
Lemma timeout_analysis_has_no_issues :
  d_success timeout_reading = false
  /\ d_error timeout_reading = Some "API timeout"
  /\ status_of (ref_analyze sample_config clock_0302 timeout_reading)
     = API_ERROR
  /\ issues_key (ref_analyze sample_config clock_0302 timeout_reading) = None
  /\ get_issues (ref_analyze sample_config clock_0302 timeout_reading)
     <> ["API timeout"].
Proof.
  repeat split; try reflexivity. discriminate.
Qed.

Lemma fetch_failure_is_api_error_witness :
  d_success (fetch_api_data (Responded 503 "Service Unavailable" None (1 # 2)))
  = false
  /\ exists reason,
       reason = "API HTTP 503 - Service Unavailable"
       /\ ref_analyze sample_config clock_0302
            (fetch_api_data (Responded 503 "Service Unavailable" None (1 # 2)))
          = ErrorAnalysis reason "01/01/2023 03:02:00".
Proof.
  split; [reflexivity|].
  destruct (fetch_failure_is_api_error RefDatetime.fromisoformat
              RefDatetime.total_minutes RefDatetime.round1
              RefDatetime.repr_float sample_config clock_0302
              (Responded 503 "Service Unavailable" None (1 # 2)) eq_refl)
    as (reason & Hreason & Ha & _).
  exists reason. split; [|exact Ha].
  injection Hreason as Hr. symmetry. exact Hr.
Defined.

(** ** Data age on concrete inputs *)

(** C5, as stated, fails for an absent date: the healthy reading without
    its [date] has data age 0, is not too old and is classified UP. *)
Lemma undated_reading_is_up :
  d_success undated_reading = true
  /\ d_status undated_reading = Some 1
  /\ d_date undated_reading = None
  /\ data_age_minutes (ref_metrics clock_0302 undated_reading) = PyInt 0
  /\ num_gt (data_age_minutes (ref_metrics clock_0302 undated_reading))
       (max_data_age_minutes sample_config) = false
  /\ status_of (ref_analyze sample_config clock_0302 undated_reading) = UP.
Proof.
  repeat split; reflexivity.
Qed.

Lemma data_age_of_bad_date_witness :
  d_success garbled_date_reading = true
  /\ d_date garbled_date_reading = Some "yesterday"
  /\ "yesterday" <> EmptyString
  /\ RefDatetime.fromisoformat (replace_Z "yesterday") = None
  /\ max_data_age_minutes sample_config < 999
  /\ data_age_minutes (ref_metrics clock_0302 garbled_date_reading)
     = PyInt 999
  /\ status_of (ref_analyze sample_config clock_0302 garbled_date_reading)
     = DOWN.
Proof.
  assert (Hne : "yesterday" <> EmptyString) by discriminate.
  split; [reflexivity|]. split; [reflexivity|]. split; [exact Hne|].
  split; [reflexivity|]. split; [reflexivity|].
  destruct (proj1 (data_age_of_bad_date RefDatetime.fromisoformat
                     RefDatetime.total_minutes RefDatetime.round1
                     RefDatetime.repr_float sample_config clock_0302
                     garbled_date_reading eq_refl)
              "yesterday" eq_refl Hne eq_refl eq_refl)
    as (Hage & _ & _ & Hdown).
  split; [exact Hage|exact (Hdown eq_refl)].
Defined.

(** ** Determinism on concrete inputs *)

(** C9, as stated, fails: the same reading under the same thresholds is UP
    two minutes after its observation and DOWN twenty minutes after it. *)
Lemma status_depends_on_clock :
  status_of (ref_analyze sample_config clock_0302 sample_reading) = UP
  /\ status_of (ref_analyze sample_config clock_0320 sample_reading) = DOWN
  /\ status_of (ref_analyze sample_config clock_0302 sample_reading)
     <> status_of (ref_analyze sample_config clock_0320 sample_reading).
Proof.
  repeat split; try reflexivity. discriminate.
Qed.

Lemma status_is_function_of_reading_thresholds_clock_witness :
  utc_now clock_0302 = utc_now clock_0302_local
  /\ status_of (ref_analyze sample_config clock_0302 sample_reading)
     = status_of (ref_analyze (init None) clock_0302_local sample_reading).
Proof.
  split; [reflexivity|].
  exact (proj1 (status_is_function_of_reading_thresholds_clock
                  RefDatetime.fromisoformat RefDatetime.total_minutes
                  RefDatetime.round1 RefDatetime.repr_float
                  sample_config clock_0302 clock_0302_local sample_reading
                  eq_refl) None).
Defined.

(** ** Change detection and persistence on concrete inputs *)

(** C2 at last status UP, current status UP, force flag unset: the rule
    says not to notify, but the value bound to [significant_change] is the
    tuple (False, False), which is truthy, so the run logs a critical
    status, posts the message and saves the status. *)
Theorem unchanged_up_status_is_notified :
  get_last_status files_last_up = Some "UP"
  /\ label (status_of (analysis_of (ref_run sample_config quiet_outside
                                      files_last_up))) = "UP"
  /\ notify_rule (Some "UP") "UP" false = false
  /\ significant_change (Some "UP") "UP" (force_notification quiet_outside)
     = [false; false]
  /\ truthy_tuple (significant_change (Some "UP") "UP"
                    (force_notification quiet_outside)) = true
  /\ events_of (ref_run sample_config quiet_outside files_last_up)
     = [LogCriticalStatus "UP";
        Post {| e_title := "ACC SERVERS ONLINE"; e_color := 0x28A745 |};
        LogNotificationSent; LogStatusSaved; LogHistorySaved 1].
Proof.
  repeat split; reflexivity.
Qed.

Lemma failed_delivery_keeps_last_status_witness :
  delivery_failed sample_config (post failing_outside)
    (ref_run_analysis sample_config failing_outside)
  /\ status_file (files_of (ref_run sample_config failing_outside
                              files_last_down)) = Some "DOWN".
Proof.
  assert (Hfail : delivery_failed sample_config (post failing_outside)
                    (ref_run_analysis sample_config failing_outside)).
  { right. right. right. exists 500, "Internal Server Error".
    split; [reflexivity|discriminate]. }
  split; [exact Hfail|].
  exact (proj1 (failed_delivery_keeps_last_status RefDatetime.fromisoformat
                  RefDatetime.total_minutes RefDatetime.round1
                  RefDatetime.repr_float sample_config failing_outside
                  files_last_down) Hfail).
Defined.

Lemma history_is_appended_and_capped_witness :
  metrics_file files_full_history = History full_history
  /\ exists h' : list Analysis,
       metrics_file (fst (save_metrics_history files_full_history
                            (ErrorAnalysis "API timeout" "01/01/2023 03:02:00")
                            true))
       = History h'
       /\ h' = (tl full_history
                ++ [ErrorAnalysis "API timeout" "01/01/2023 03:02:00"])%list
       /\ List.length h' = 200%nat.
Proof.
  split; [reflexivity|].
  destruct (history_is_appended_and_capped files_full_history
              (ErrorAnalysis "API timeout" "01/01/2023 03:02:00") full_history
              eq_refl) as (h' & Hfile & _ & _ & _ & _ & Hfull).
  exists h'. split; [exact Hfile|]. apply Hfull. reflexivity.
Defined.

(** * Further properties on concrete inputs *)

Local Abbreviation ref_embed_fields :=
  (embed_fields RefFormat.fmt_1f RefFormat.fmt_2f
     (RefFormat.offline_hours_minutes 1672542120000000)).

Local Abbreviation ref_test_analysis :=
  (test_analysis_logic RefDatetime.fromisoformat RefDatetime.total_minutes
     RefDatetime.round1).

(** The fields of the message for the reading that is twenty minutes
    old. *)
Example stale_reading_fields :
  option_map (map (fun f => (f_icon f, f_name f, f_value f)))
    (ref_embed_fields sample_config
       (ref_analyze sample_config clock_0320 sample_reading))
  = Some [ (IconChart, "State Detected", "`DOWN`");
           (IconRobot, "API Status", "`1` (UP)");
           (IconCalendar, "Last Update", "01/01/2023 03:20:00");
           (IconGreen, "Ping Servers", "`35 ms`");
           (IconGreen, "Servers Online", "`1,600`");
           (IconPeople, "Players Online", "`2,500`");
           (IconRed, "Data Age", "`20.0 minutes ago`");
           (IconStopwatch, "API Response Time", "`0.25s`");
           (IconWarning, "Issues Detected",
            "```" ++ newline ++ bullet
              ++ " ACC data too old: 20.0 minutes (> 15 minutes)```") ].
Proof. vm_compute. reflexivity. Qed.

Lemma non_up_status_has_issue_witness :
  d_success no_servers_reading = true
  /\ (d_status no_servers_reading = Some 1
      \/ d_status no_servers_reading = Some 0
      \/ d_status no_servers_reading = Some (-1))
  /\ 0 <= max_acceptable_ping sample_config
  /\ status_of (ref_analyze sample_config clock_0302 no_servers_reading) <> UP
  /\ get_issues (ref_analyze sample_config clock_0302 no_servers_reading) <> [].
Proof.
  assert (Hnot : status_of (ref_analyze sample_config clock_0302
                              no_servers_reading) <> UP).
  { intros H. vm_compute in H. discriminate H. }
  assert (Hmax : 0 <= max_acceptable_ping sample_config).
  { intros H. vm_compute in H. discriminate H. }
  split; [reflexivity|]. split; [left; reflexivity|].
  split; [exact Hmax|]. split; [exact Hnot|].
  exact (non_up_status_has_issue RefDatetime.fromisoformat
           RefDatetime.total_minutes RefDatetime.round1 RefDatetime.repr_float
           sample_config clock_0302 no_servers_reading eq_refl
           (or_introl eq_refl) Hmax Hnot).
Defined.

Lemma up_status_reports_only_warnings_witness :
  status_of (ref_analyze sample_config clock_0302 warm_ping_reading) = UP
  /\ exists p,
       d_ping warm_ping_reading = Some p
       /\ get_issues (ref_analyze sample_config clock_0302 warm_ping_reading)
          = ((if (negb (p =? 0) && (warning_ping sample_config <? p))%bool
              then [("ACC ping warning: " ++ str_of_int p ++ "ms (> "
                       ++ str_of_int (warning_ping sample_config) ++ "ms)")%string]
              else [])
             ++ (if get_default (d_servers warm_ping_reading) 0
                    <? warning_servers sample_config
                 then [("ACC servers count decreasing ("
                          ++ str_of_int (get_default (d_servers warm_ping_reading) 0)
                          ++ ")")%string]
                 else []))%list.
Proof.
  split; [reflexivity|].
  exact (up_status_reports_only_warnings RefDatetime.fromisoformat
           RefDatetime.total_minutes RefDatetime.round1 RefDatetime.repr_float
           sample_config clock_0302 warm_ping_reading eq_refl).
Defined.

Lemma run_appends_analysis_to_history_witness :
  (metrics_file files_full_history = History full_history
   \/ (metrics_file files_full_history = NoFile /\ full_history = []))
  /\ metrics_write_ok failing_outside = true
  /\ analysis_of (ref_run sample_config failing_outside files_full_history)
     = ref_run_analysis sample_config failing_outside
  /\ metrics_file (files_of (ref_run sample_config failing_outside
                               files_full_history))
     = History (slice_last 200
                  (full_history
                     ++ [ref_run_analysis sample_config failing_outside])).
Proof.
  split; [left; reflexivity|]. split; [reflexivity|].
  exact (run_appends_analysis_to_history RefDatetime.fromisoformat
           RefDatetime.total_minutes RefDatetime.round1 RefDatetime.repr_float
           sample_config failing_outside files_full_history full_history
           (or_introl eq_refl) eq_refl).
Defined.


Lemma fetch_failure_is_never_posted_witness :
  d_success (fetch_api_data (fetch timeout_outside)) = false
  /\ status_of (analysis_of (ref_run sample_config timeout_outside
                               files_last_up)) = API_ERROR
  /\ (forall e : Embed,
         ~ In (Post e) (events_of (ref_run sample_config timeout_outside
                                     files_last_up)))
  /\ status_file (files_of (ref_run sample_config timeout_outside files_last_up))
     = Some "UP".
Proof.
  split; [reflexivity|].
  exact (fetch_failure_is_never_posted RefDatetime.fromisoformat
           RefDatetime.total_minutes RefDatetime.round1 RefDatetime.repr_float
           sample_config timeout_outside files_last_up eq_refl).
Defined.

Lemma embed_identifies_status_witness :
  create_discord_embed (ref_analyze sample_config clock_0302 sample_reading)
  = Some {| e_title := "ACC SERVERS ONLINE"; e_color := 0x28A745 |}
  /\ create_discord_embed (ref_analyze sample_config clock_0320 sample_reading)
     = Some {| e_title := "ACC SERVERS OFFLINE"; e_color := 0xDC3545 |}
  /\ (0x28A745 = 0xDC3545 <->
      status_of (ref_analyze sample_config clock_0302 sample_reading)
      = status_of (ref_analyze sample_config clock_0320 sample_reading)).
Proof.
  split; [reflexivity|]. split; [reflexivity|].
  exact (proj1 (embed_identifies_status
                  (ref_analyze sample_config clock_0302 sample_reading)
                  (ref_analyze sample_config clock_0320 sample_reading)
                  {| e_title := "ACC SERVERS ONLINE"; e_color := 0x28A745 |}
                  {| e_title := "ACC SERVERS OFFLINE"; e_color := 0xDC3545 |}
                  eq_refl eq_refl)).
Defined.

Lemma embed_shows_every_issue_witness :
  ref_embed_fields sample_config
    (ref_analyze sample_config clock_0320 sample_reading)
  = Some (get_default
            (ref_embed_fields sample_config
               (ref_analyze sample_config clock_0320 sample_reading)) [])
  /\ (get_issues (ref_analyze sample_config clock_0320 sample_reading) <> [] ->
      In {| f_icon := IconWarning;
            f_name := "Issues Detected";
            f_value := "```" ++ newline
                       ++ String.concat newline
                            (map (fun issue => bullet ++ " " ++ issue)
                               (get_issues (ref_analyze sample_config clock_0320
                                              sample_reading)))
                       ++ "```";
            f_inline := false |}
         (get_default
            (ref_embed_fields sample_config
               (ref_analyze sample_config clock_0320 sample_reading)) [])).
Proof.
  split; [reflexivity|].
  exact (proj1 (embed_shows_every_issue RefDatetime.fromisoformat
                  RefDatetime.total_minutes RefDatetime.round1
                  RefDatetime.repr_float RefFormat.fmt_1f RefFormat.fmt_2f
                  (RefFormat.offline_hours_minutes 1672542120000000)
                  sample_config sample_config clock_0320 sample_reading
                  (get_default
                     (ref_embed_fields sample_config
                        (ref_analyze sample_config clock_0320 sample_reading))
                     [])
                  eq_refl)).
Defined.

Lemma lights_agree_with_thresholds_witness :
  warning_ping sample_config <= max_acceptable_ping sample_config
  /\ min_servers_expected sample_config <= warning_servers sample_config
  /\ ref_embed_fields sample_config
       (AccAnalysis (ref_metrics clock_0302 sample_reading) UP [])
     = Some (get_default
               (ref_embed_fields sample_config
                  (AccAnalysis (ref_metrics clock_0302 sample_reading) UP []))
               [])
  /\ In ping_field_35
       (get_default
          (ref_embed_fields sample_config
             (AccAnalysis (ref_metrics clock_0302 sample_reading) UP [])) [])
  /\ (f_name ping_field_35 = "Ping Servers" ->
      exists p,
        ping_ms (ref_metrics clock_0302 sample_reading) = Some p
        /\ (f_icon ping_field_35 = IconRed <->
            max_acceptable_ping sample_config < p)).
Proof.
  assert (Hw : warning_ping sample_config <= max_acceptable_ping sample_config).
  { intros H. vm_compute in H. discriminate H. }
  assert (Hm : min_servers_expected sample_config <= warning_servers sample_config).
  { intros H. vm_compute in H. discriminate H. }
  assert (Hin : In ping_field_35
                  (get_default
                     (ref_embed_fields sample_config
                        (AccAnalysis (ref_metrics clock_0302 sample_reading)
                           UP [])) [])).
  { right. right. right. left. reflexivity. }
  split; [exact Hw|]. split; [exact Hm|]. split; [reflexivity|].
  split; [exact Hin|].
  exact (proj1 (lights_agree_with_thresholds RefFormat.fmt_1f RefFormat.fmt_2f
                  (RefFormat.offline_hours_minutes 1672542120000000)
                  sample_config (ref_metrics clock_0302 sample_reading) UP []
                  (get_default
                     (ref_embed_fields sample_config
                        (AccAnalysis (ref_metrics clock_0302 sample_reading)
                           UP [])) [])
                  ping_field_35 Hw Hm eq_refl Hin)).
Defined.

Lemma test_analysis_logic_agrees_with_monitor_witness :
  p_status sample_payload = Some 1
  /\ num_gt (compute_data_age RefDatetime.fromisoformat
               RefDatetime.total_minutes clock_0302 (p_date sample_payload)) 20
     = num_gt (round_1 RefDatetime.round1
                 (compute_data_age RefDatetime.fromisoformat
                    RefDatetime.total_minutes clock_0302
                    (p_date sample_payload))) 20
  /\ exists t m issues,
       ref_test_analysis clock_0302 (Some sample_payload) = Some t
       /\ ref_analyze test_config clock_0302
            (fetch_api_data (Responded 200 "OK" (Some sample_payload) (1 # 4)))
          = AccAnalysis m (t_status t) issues
       /\ t_ping_ms t = ping_ms m
       /\ t_servers_count t = servers_count m
       /\ t_players_count t = players_count m
       /\ t_data_age_minutes t = data_age_minutes m.
Proof.
  split; [reflexivity|]. split; [reflexivity|].
  exact (test_analysis_logic_agrees_with_monitor RefDatetime.fromisoformat
           RefDatetime.total_minutes RefDatetime.round1 RefDatetime.repr_float
           clock_0302 sample_payload "OK" (1 # 4) eq_refl eq_refl).
Defined.

Lemma raw_status_issue_comes_first_witness :
  d_success down_reading = true
  /\ hd_error (get_issues (ref_analyze sample_config clock_0302 down_reading))
     = Some "ACC servers offline (API)".
Proof.
  split; [reflexivity|].
  exact (proj2 (proj1 (raw_status_issue_comes_first RefDatetime.fromisoformat
                         RefDatetime.total_minutes RefDatetime.round1
                         RefDatetime.repr_float sample_config clock_0302
                         down_reading eq_refl))
           eq_refl).
Defined.
